(** * PhishAlert: the request handlers of [app.py]

    A shallow embedding of the Flask application in [src/app.py] and the
    properties its specification states about it.

    The handlers are straight-line orchestration over external services
    (the on-disk cache, the outbound HTTP client, the pre-trained model,
    the contact table).  Each service is modelled by the part of its
    contract the handlers rely on; every interaction with one is recorded
    in an event log, so that "the classifier is not invoked" is a
    statement about the log.

    Numbers: the confidence scores are Python floats.  [classify] takes them
    as exact rationals ([Q]), which is all the statements about the label
    and the threshold need; [classify_binary64] is the same computation in
    IEEE binary64, for the statements that depend on rounding. *)

From Stdlib Require Import ZArith QArith Qpower Lqa Lia List SpecFloat.
From stdpp Require Import gmap strings list.
Import ListNotations.

Local Open Scope Z_scope.
Local Open Scope string_scope.
Local Open Scope list_scope.

(** ** Requests and responses *)

(** The routes of [/] and [/verify_recaptcha] list GET and POST; Flask adds
    HEAD to every route that accepts GET. *)
Inductive Method := GET | POST | HEAD.

#[global] Instance Method_eq_dec : EqDecision Method.
Proof. solve_decision. Defined.

(** [request.cookies] and [request.form] are multi-dicts: ordered, possibly
    with repeated keys.  Indexing and [.get] return the first value. *)
Record Request := {
  method : Method;
  cookies : list (string * string);
  form : list (string * string)
}.

Fixpoint multidict_get (key : string) (d : list (string * string)) : option string :=
  match d with
  | [] => None
  | (k, v) :: rest => if decide (k = key) then Some v else multidict_get key rest
  end.

(** [Contact]: the single table of the database. *)
Record Contact := {
  contact_id : Z;
  contact_name : string;
  contact_email : string;
  contact_message : string
}.

(** Values handed to a template as keyword arguments. *)
Inductive PyVal :=
| PyNone
| PyBool (b : bool)
| PyStr (s : string)
| PyFloat (q : Q)
| PyContacts (rows : list Contact).

Definition TemplateContext := list (string * PyVal).

(** A cookie as [Response.set_cookie] records it: the name, the value,
    and the two arguments that give it a lifetime beyond the browser
    session. *)
Record Cookie := {
  cookie_key : string;
  cookie_value : string;
  cookie_max_age : option Z;
  cookie_expires : option Z
}.

(** [resp.set_cookie(key, value)]: [max_age] and [expires] are left at their
    default, [None]. *)
Definition set_cookie (key value : string) : Cookie :=
  {| cookie_key := key; cookie_value := value;
     cookie_max_age := None; cookie_expires := None |}.

(** What a view function returns: a [str] (sent as a 200 page), or the
    response built by [redirect], with the cookies [set_cookie] put on it. *)
Inductive Response :=
| Page (body : string)
| Redirect (location : string) (set_cookies : list Cookie).

(** ** External services *)

(** Outcome of [requests.get(url, timeout=5)]: a [requests.RequestException]
    (connection error, timeout, malformed URL), or a response with a status. *)
Inductive GetOutcome :=
| GetRaised
| GetStatus (status_code : Z).

(** JSON values as far as [result.get('success')] looks at them. *)
Inductive JsonVal :=
| JNull
| JBool (b : bool)
| JNumber (n : Z)
| JString (s : string).

Definition json_truthy (v : option JsonVal) : bool :=
  match v with
  | None | Some JNull => false
  | Some (JBool b) => b
  | Some (JNumber n) => negb (n =? 0)%Z
  | Some (JString s) => negb (String.eqb s "")
  end.

Fixpoint json_get (key : string) (o : list (string * JsonVal)) : option JsonVal :=
  match o with
  | [] => None
  | (k, v) :: rest => if decide (k = key) then Some v else json_get key rest
  end.

(** Outcome of [requests.post] to the siteverify endpoint: an exception, or
    a response with a status and, when the body is a JSON object, its
    members ([None]: [response.json()] or [result.get] would raise). *)
Inductive PostOutcome :=
| PostRaised
| PostReply (status_code : Z) (json : option (list (string * JsonVal))).

(** [Response.ok]: false exactly when [raise_for_status] raises, that is
    for a status in 400..599. *)
Definition response_ok (status_code : Z) : bool :=
  negb ((400 <=? status_code)%Z && (status_code <? 600)%Z).

Record Network := {
  requests_get : string -> Z -> GetOutcome;
  requests_post : string -> list (string * option string) -> PostOutcome
}.

(** The pre-trained model: [predict([url])[0]] and [predict_proba([url])[0]],
    the latter a row of two class probabilities. *)
Record Model := {
  predict : string -> Z;
  predict_proba : string -> Q * Q
}.

(** ** The world and its event log *)

Inductive Event :=
| EvCacheGet (key : string)
| EvCacheSet (key value : string) (timeout : Z)
| EvRequestsGet (url : string) (timeout : Z)
| EvPredict (url : string)
| EvPredictProba (url : string)
| EvRequestsPost (url : string)
| EvDbAdd (name email message : string)
| EvDbGet (id : Z)
| EvDbDelete (id : Z)
| EvDbCommit
| EvDbQueryAll
| EvFlash (message category : string).

(** The cache store keeps, per key, the value and the time it expires at
    (0: never), as the filesystem cache of the caching extension does.  The
    contact table maps a primary key to the row's name, email and message.
    The session of pending inserts and deletes is flushed by [commit]. *)
Inductive Pending :=
| PendingAdd (name email message : string)
| PendingDelete (id : Z).

Record World := {
  clock : Z;
  cache_store : gmap string (string * Z);
  contact_table : gmap Z (string * string * string);
  db_session : list Pending;
  flashes : list (string * string);
  log : list Event
}.

Definition set_cache_store (w : World) (s : gmap string (string * Z)) : World :=
  {| clock := clock w; cache_store := s; contact_table := contact_table w;
     db_session := db_session w; flashes := flashes w; log := log w |}.

Definition set_contact_table (w : World) (t : gmap Z (string * string * string)) : World :=
  {| clock := clock w; cache_store := cache_store w; contact_table := t;
     db_session := db_session w; flashes := flashes w; log := log w |}.

Definition set_db_session (w : World) (s : list Pending) : World :=
  {| clock := clock w; cache_store := cache_store w; contact_table := contact_table w;
     db_session := s; flashes := flashes w; log := log w |}.

Definition set_flashes (w : World) (f : list (string * string)) : World :=
  {| clock := clock w; cache_store := cache_store w; contact_table := contact_table w;
     db_session := db_session w; flashes := f; log := log w |}.

Definition set_log (w : World) (l : list Event) : World :=
  {| clock := clock w; cache_store := cache_store w; contact_table := contact_table w;
     db_session := db_session w; flashes := flashes w; log := l |}.

(** ** A state monad with HTTP aborts

    A view either returns a value or is cut short by an HTTP exception
    ([abort], a missing form key) or an unhandled error, which Flask turns
    into an error response with that status. *)
Inductive Result (A : Type) :=
| Ok (a : A)
| Abort (status : Z).
Arguments Ok {A} a.
Arguments Abort {A} status.

Definition M (A : Type) : Type := World -> Result A * World.

Definition ret {A} (a : A) : M A := fun w => (Ok a, w).

Definition bind {A B} (m : M A) (k : A -> M B) : M B :=
  fun w => match m w with
           | (Ok a, w') => k a w'
           | (Abort s, w') => (Abort s, w')
           end.

Definition abort {A} (status : Z) : M A := fun w => (Abort status, w).

Declare Scope view_scope.
Delimit Scope view_scope with view.
Notation "x <- m ;; k" := (bind m (fun x => k))
  (at level 100, m at next level, right associativity) : view_scope.
Notation "m ;;; k" := (bind m (fun _ => k))
  (at level 100, right associativity) : view_scope.

Definition emit (e : Event) : M unit :=
  fun w => (Ok tt, set_log w (log w ++ [e])).

Definition events_of {A} (m : M A) (w : World) : list Event :=
  drop (length (log w)) (log (snd (m w))).

(** ** The services as monadic operations *)

(** [request.form[key]]: a missing key raises [BadRequestKeyError], which
    Flask answers with 400. *)
Definition form_index (key : string) (req : Request) : M string :=
  match multidict_get key (form req) with
  | Some v => ret v
  | None => abort 400
  end.

(** Truth value of a Python [str] or [None]. *)
Definition str_truthy (s : option string) : bool :=
  match s with
  | None => false
  | Some v => negb (String.eqb v "")
  end.

(** [cache.get]: the entry is returned when it never expires or its expiry
    time has not passed. *)
Definition cache_lookup (now : Z) (store : gmap string (string * Z)) (key : string)
  : option string :=
  match store !! key with
  | Some (value, expires) =>
      if (expires =? 0)%Z || (now <=? expires)%Z then Some value else None
  | None => None
  end.

Definition cache_get (key : string) : M (option string) :=
  (emit (EvCacheGet key) ;;;
   fun w => (Ok (cache_lookup (clock w) (cache_store w) key), w))%view.

(** [cache.set(key, value, timeout)]: a non-zero timeout is counted from
    the time of the write. *)
Definition cache_expiry (now timeout : Z) : Z :=
  if (timeout =? 0)%Z then 0 else now + timeout.

Definition cache_set (key value : string) (timeout : Z) : M unit :=
  (emit (EvCacheSet key value timeout) ;;;
   fun w => (Ok tt, set_cache_store w
                      (<[key := (value, cache_expiry (clock w) timeout)]> (cache_store w))))%view.

Definition http_get (net : Network) (url : string) (timeout : Z) : M GetOutcome :=
  (emit (EvRequestsGet url timeout) ;;; ret (requests_get net url timeout))%view.

Definition http_post (net : Network) (url : string) (data : list (string * option string))
  : M PostOutcome :=
  (emit (EvRequestsPost url) ;;; ret (requests_post net url data))%view.

Definition model_predict (m : Model) (url : string) : M Z :=
  (emit (EvPredict url) ;;; ret (predict m url))%view.

Definition model_predict_proba (m : Model) (url : string) : M (Q * Q) :=
  (emit (EvPredictProba url) ;;; ret (predict_proba m url))%view.

(** Python's [a > b] on numbers. *)
Definition Qgtb (a b : Q) : bool := negb (Qle_bool a b).

(** *** The contact table

    Rows are keyed by their integer primary key.  A new row gets the key
    after the largest one in use (1 in an empty table). *)
Definition next_rowid (t : gmap Z (string * string * string)) : Z :=
  match (map_to_list t).*1 with
  | [] => 1
  | k :: ks => 1 + foldr Z.max k ks
  end.

Definition apply_pending (t : gmap Z (string * string * string)) (p : Pending)
  : gmap Z (string * string * string) :=
  match p with
  | PendingAdd name email message => <[next_rowid t := (name, email, message)]> t
  | PendingDelete id => delete id t
  end.

Definition row_to_contact (kv : Z * (string * string * string)) : Contact :=
  {| contact_id := kv.1; contact_name := kv.2.1.1;
     contact_email := kv.2.1.2; contact_message := kv.2.2 |}.

(** [db.session.add], [db.session.delete], [db.session.commit]. *)
Definition db_session_add (name email message : string) : M unit :=
  (emit (EvDbAdd name email message) ;;;
   fun w => (Ok tt, set_db_session w (db_session w ++ [PendingAdd name email message])))%view.

Definition db_session_delete (c : Contact) : M unit :=
  (emit (EvDbDelete (contact_id c)) ;;;
   fun w => (Ok tt, set_db_session w (db_session w ++ [PendingDelete (contact_id c)])))%view.

Definition db_session_commit : M unit :=
  (emit EvDbCommit ;;;
   fun w => (Ok tt, set_db_session
                      (set_contact_table w (foldl apply_pending (contact_table w) (db_session w)))
                      []))%view.

(** [Contact.query.all()]. *)
Definition query_all : M (list Contact) :=
  (emit EvDbQueryAll ;;;
   fun w => (Ok (row_to_contact <$> map_to_list (contact_table w)), w))%view.

(** [Contact.query.get_or_404(id)]. *)
Definition get_or_404 (id : Z) : M Contact :=
  (emit (EvDbGet id) ;;;
   fun w => match contact_table w !! id with
            | Some row => (Ok (row_to_contact (id, row)), w)
            | None => (Abort 404, w)
            end)%view.

Definition flash (message category : string) : M unit :=
  (emit (EvFlash message category) ;;;
   fun w => (Ok tt, set_flashes w (flashes w ++ [(category, message)])))%view.

Definition url_for (endpoint : string) : string := "/" +:+ endpoint.

(** ** The views *)

Section App.

(** The templates are not part of the handlers' file: rendering is a
    function of the template's name and the keyword arguments. *)
Variable render_template : string -> TemplateContext -> string.

(** [feature_model = joblib.load(...)], loaded once. *)
Variable feature_model : Model.

(** [os.getenv] yields [None] for an unset variable. *)
Variable RECAPTCHA_SITE_KEY : option string.
Variable RECAPTCHA_SECRET_KEY : option string.

Definition py_opt_str (s : option string) : PyVal :=
  match s with
  | Some v => PyStr v
  | None => PyNone
  end.

Definition verify_recaptcha (net : Network) (req : Request) : M Response :=
  (if decide (method req = POST) then
     let token := multidict_get "g-recaptcha-response" (form req) in
     if negb (str_truthy token) then
       ret (Page (render_template "verification.html"
                    [("error", PyStr "Please complete the reCAPTCHA.")]))
     else
       response <- http_post net "https://www.google.com/recaptcha/api/siteverify"
                     [("secret", RECAPTCHA_SECRET_KEY); ("response", token)] ;;
       match response with
       | PostRaised => abort 500
       | PostReply status_code json =>
           if response_ok status_code then
             match json with
             | None => abort 500
             | Some result =>
                 if json_truthy (json_get "success" result) then
                   ret (Redirect "/" [set_cookie "recaptcha_verified" "true"])
                 else
                   ret (Page (render_template "verification.html"
                                [("error", PyStr "reCAPTCHA verification failed.")]))
             end
           else
             ret (Page (render_template "verification.html"
                          [("error",
                            PyStr "Failed to verify reCAPTCHA. Please try again later.")]))
       end
   else
     ret (Page (render_template "verification.html"
                  [("RECAPTCHA_SITE_KEY", py_opt_str RECAPTCHA_SITE_KEY)])))%view.

(** The liveness check and the prediction: the label and the two
    confidence scores of the [try] block. *)
Definition classify (net : Network) (url : string) : M (string * Q * Q) :=
  (response <- http_get net url 5 ;;
   match response with
   | GetStatus status_code =>
       if (status_code =? 200)%Z then
         feature_pred <- model_predict feature_model url ;;
         feature_confidence <- model_predict_proba feature_model url ;;
         let confidence_phishing_feature := (feature_confidence.1 * 100)%Q in
         let confidence_legitimate_feature := (feature_confidence.2 * 100)%Q in
         let threshold := 50%Q in
         let final_pred := if Qgtb confidence_phishing_feature threshold then (-1)%Z else 1%Z in
         let result := if (final_pred =? -1)%Z then "Phishing" else "Legitimate" in
         ret (result, confidence_phishing_feature, confidence_legitimate_feature)
       else
         ret ("Phishing", 100%Q, 0%Q)
   | GetRaised =>
       ret ("Phishing", 100%Q, 0%Q)
   end)%view.

Definition index_context (url result : string) (cp cl : Q) : TemplateContext :=
  [("url", PyStr url); ("result", PyStr result);
   ("confidence_phishing_feature", PyFloat cp);
   ("confidence_legitimate_feature", PyFloat cl)].

Definition detect_phishing (net : Network) (req : Request) : M Response :=
  (if decide (multidict_get "recaptcha_verified" (cookies req) = Some "true") then
     if decide (method req = POST) then
       url <- form_index "url" req ;;
       cached_result <- cache_get url ;;
       if str_truthy cached_result then
         ret (Page (default "" cached_result))
       else
         verdict <- classify net url ;;
         let '(result, confidence_phishing_feature, confidence_legitimate_feature) := verdict in
         let cached_render :=
           render_template "index.html"
             (index_context url result confidence_phishing_feature
                confidence_legitimate_feature) in
         cache_set url cached_render 3600 ;;;
         ret (Page cached_render)
     else
       ret (Page (render_template "index.html" []))
   else
     ret (Redirect "/verify_recaptcha" []))%view.

Definition submit_contact (req : Request) : M Response :=
  (name <- form_index "name" req ;;
   email <- form_index "email" req ;;
   message <- form_index "message" req ;;
   db_session_add name email message ;;;
   db_session_commit ;;;
   ret (Page (render_template "contact.html" [("success", PyBool true)])))%view.

Definition view_contacts : M Response :=
  (contacts <- query_all ;;
   ret (Page (render_template "view_contacts.html" [("contacts", PyContacts contacts)])))%view.

Definition delete_contact (id : Z) : M Response :=
  (contact <- get_or_404 id ;;
   db_session_delete contact ;;;
   db_session_commit ;;;
   flash "Contact deleted successfully." "success" ;;;
   ret (Redirect (url_for "view_contacts") []))%view.

End App.

(** ** The scores in binary64

    A Python float is an IEEE binary64 number: [spec_float] with 53 bits of
    precision and exponents up to 1024.  Products round to nearest, ties to
    even. *)

Definition b64_mul (x y : spec_float) : spec_float := SFmul 53 1024 x y.
Definition b64_add (x y : spec_float) : spec_float := SFadd 53 1024 x y.
Definition b64_valid (x : spec_float) : bool := valid_binary 53 1024 x.
Definition b64_leb (x y : spec_float) : bool := SFleb x y.

(** Python's [a > b] on floats. *)
Definition b64_gt (x y : spec_float) : bool := SFltb y x.

(** The literals [0.0], [1.0], [50] and [100] as binary64 numbers. *)
Definition b64_zero : spec_float := S754_zero false.
Definition b64_one : spec_float := S754_finite false 4503599627370496 (-52).
Definition b64_50 : spec_float := S754_finite false 7036874417766400 (-47).
Definition b64_100 : spec_float := S754_finite false 7036874417766400 (-46).

(** The rational a finite binary64 number stands for. *)
Definition b64_value (x : spec_float) : Q :=
  match x with
  | S754_finite s m e => inject_Z (cond_Zopp s (Zpos m)) * 2 ^ e
  | _ => 0
  end.

(** The binary64 number with mantissa [r], at most [2 ^ 53], and exponent
    [e]: what rounding a positive product yields. *)
Definition b64_encode (r e : Z) : spec_float :=
  match r with
  | Z0 => S754_zero false
  | Zpos m =>
      if (r =? 2 ^ 53)%Z then S754_finite false (2 ^ 52) (e + 1) else S754_finite false m e
  | Zneg _ => S754_nan
  end.

(** The model with its probabilities as binary64 numbers. *)
Record Model64 := {
  predict64 : string -> Z;
  predict_proba64 : string -> spec_float * spec_float
}.

(** The [try] block of [detect_phishing] once more, with the scores computed
    as the interpreter does. *)
Definition classify_binary64 (fm : Model64) (net : Network) (url : string)
  : M (string * spec_float * spec_float) :=
  (response <- http_get net url 5 ;;
   match response with
   | GetStatus status_code =>
       if (status_code =? 200)%Z then
         feature_pred <- (emit (EvPredict url) ;;; ret (predict64 fm url)) ;;
         feature_confidence <- (emit (EvPredictProba url) ;;; ret (predict_proba64 fm url)) ;;
         let confidence_phishing_feature := b64_mul feature_confidence.1 b64_100 in
         let confidence_legitimate_feature := b64_mul feature_confidence.2 b64_100 in
         let threshold := b64_50 in
         let final_pred :=
           if b64_gt confidence_phishing_feature threshold then (-1)%Z else 1%Z in
         let result := if (final_pred =? -1)%Z then "Phishing" else "Legitimate" in
         ret (result, confidence_phishing_feature, confidence_legitimate_feature)
       else
         ret ("Phishing", b64_100, b64_zero)
   | GetRaised =>
       ret ("Phishing", b64_100, b64_zero)
   end)%view.

(** ** Reading the event log *)

Definition is_model_call (e : Event) : bool :=
  match e with
  | EvPredict _ | EvPredictProba _ => true
  | _ => false
  end.

(** A request from a client that passed the CAPTCHA gate. *)
Definition verified (req : Request) : Prop :=
  multidict_get "recaptcha_verified" (cookies req) = Some "true".

(** The contacts a listing hands to its template. *)
Definition listed_contacts (w : World) : list Contact :=
  row_to_contact <$> map_to_list (contact_table w).

(** ** Vocabulary of the statements *)

(** The liveness check failed: an exception, or a status other than 200. *)
Definition liveness_failed (net : Network) (url : string) : Prop :=
  requests_get net url 5 = GetRaised
  \/ exists status_code, requests_get net url 5 = GetStatus status_code /\ status_code <> 200.

(** The world after a cache miss on [url] that logged [evs] and stored
    [payload]. *)
Definition after_miss (w : World) (url payload : string) (evs : list Event) : World :=
  set_cache_store (set_log w (log w ++ evs))
    (<[url := (payload, clock w + 3600)]> (cache_store w)).

(** The label the prediction branch computes from the phishing score. *)
Definition threshold_label (confidence_phishing : Q) : string :=
  if Qgtb confidence_phishing 50 then "Phishing" else "Legitimate".

(** No usable cache entry: none at all, an expired one, or an empty page. *)
Definition cache_miss (w : World) (url : string) : Prop :=
  str_truthy (cache_lookup (clock w) (cache_store w) url) = false.


(** The CAPTCHA gate. *)
Definition siteverify_url : string := "https://www.google.com/recaptcha/api/siteverify".

Definition captcha_token (req : Request) : option string :=
  multidict_get "g-recaptcha-response" (form req).

Definition siteverify_reply (secret : option string) (net : Network) (req : Request)
  : PostOutcome :=
  requests_post net siteverify_url [("secret", secret); ("response", captcha_token req)].

(** The verification went through: a token was sent, the endpoint answered
    with a success status and a JSON object whose [success] is true. *)
Definition captcha_passed (secret : option string) (net : Network) (req : Request) : bool :=
  str_truthy (captcha_token req) &&
  match siteverify_reply secret net req with
  | PostReply status_code (Some result) =>
      response_ok status_code && json_truthy (json_get "success" result)
  | _ => false
  end.

Definition gate_error (rt : string -> TemplateContext -> string) (msg : string) : Response :=
  Page (rt "verification.html" [("error", PyStr msg)]).

(** The name/value pairs a client sends back for the cookies it was given. *)
Definition cookie_pairs (cs : list Cookie) : list (string * string) :=
  map (fun c => (cookie_key c, cookie_value c)) cs.






(** ** Concrete requests, services and a world *)

Module Sample.

Fixpoint show_context (ctx : TemplateContext) : string :=
  match ctx with
  | [] => ""
  | (k, PyStr s) :: rest => k +:+ "=" +:+ s +:+ ";" +:+ show_context rest
  | (k, _) :: rest => k +:+ ";" +:+ show_context rest
  end.

(** A stand-in for the templates: the template's name, then the string
    arguments. *)
Definition render (name : string) (ctx : TemplateContext) : string :=
  name +:+ "?" +:+ show_context ctx.

Definition model : Model :=
  {| predict := fun _ => 1; predict_proba := fun _ => (1 # 2, 1 # 2)%Q |}.

Definition skewed_model : Model :=
  {| predict := fun _ => 1; predict_proba := fun _ => (7 # 10, 3 # 10)%Q |}.

Definition passing_reply : PostOutcome :=
  PostReply 200 (Some [("success", JBool true)]).

Definition net_up : Network :=
  {| requests_get := fun _ _ => GetStatus 200;
     requests_post := fun _ _ => passing_reply |}.

Definition net_down : Network :=
  {| requests_get := fun _ _ => GetRaised;
     requests_post := fun _ _ => PostRaised |}.

Definition world : World :=
  {| clock := 1700000000; cache_store := ∅;
     contact_table := {[ 1 := ("Ann", "ann@example.test", "hello") ]};
     db_session := []; flashes := []; log := [] |}.

Definition target : string := "http://example-unreachable.test".

Definition post_url : Request :=
  {| method := POST; cookies := [("recaptcha_verified", "true")];
     form := [("url", target)] |}.

Definition post_unverified : Request :=
  {| method := POST; cookies := [("recaptcha_verified", "false")];
     form := [("url", target)] |}.

Definition post_empty : Request :=
  {| method := POST; cookies := [("recaptcha_verified", "true")]; form := [] |}.

Definition post_token : Request :=
  {| method := POST; cookies := []; form := [("g-recaptcha-response", "tok")] |}.

Definition post_contact : Request :=
  {| method := POST; cookies := [];
     form := [("name", "Bob"); ("email", "bob@example.test"); ("message", "hi")] |}.

Definition stale_world : World :=
  {| clock := 1700000000;
     cache_store := {[ target := ("stale page", 1600000000) ]};
     contact_table := ∅; db_session := []; flashes := []; log := [] |}.

Definition blank_world : World :=
  {| clock := 1700000000;
     cache_store := {[ target := ("", 0) ]};
     contact_table := ∅; db_session := []; flashes := []; log := [] |}.

Definition get_root : Request :=
  {| method := GET; cookies := [("recaptcha_verified", "true")]; form := [] |}.

Definition post_blank_token : Request :=
  {| method := POST; cookies := []; form := [("g-recaptcha-response", "")] |}.

(** 1 - 0.641 and 0.641, then 0.021 and 0.979, as binary64 numbers. *)
Definition p_0359 : spec_float := S754_finite false 6467169064904032 (-54).
Definition p_0641 : spec_float := S754_finite false 5773614722288976 (-53).
Definition p_0021 : spec_float := S754_finite false 6052837899185947 (-58).
Definition p_0979 : spec_float := S754_finite false 8818048070391431 (-53).

Definition model64 : Model64 :=
  {| predict64 := fun _ => 1; predict_proba64 := fun _ => (p_0359, p_0641) |}.





Definition net_truthy : Network :=
  {| requests_get := fun _ _ => GetStatus 200;
     requests_post := fun _ _ => PostReply 200 (Some [("success", JString "yes")]) |}.

End Sample.

(** ** Basic facts about the monad and the log *)

Lemma events_of_app {A} (m : M A) (w : World) (evs : list Event) :
  log (m w).2 = log w ++ evs -> events_of m w = evs.
Proof.
  intros H. unfold events_of. rewrite H. apply drop_app_length.
Qed.

Lemma events_of_same {A} (m : M A) (w : World) :
  (m w).2 = w -> events_of m w = [].
Proof.
  intros H. apply events_of_app. rewrite H. symmetry. apply app_nil_r.
Qed.

Lemma Qgtb_true (a b : Q) : Qgtb a b = true <-> (b < a)%Q.
Proof.
  unfold Qgtb. rewrite negb_true_iff, <- not_true_iff_false, Qle_bool_iff.
  split; intros H; [apply Qnot_le_lt | apply Qlt_not_le]; exact H.
Qed.

Lemma Qgtb_false (a b : Q) : Qgtb a b = false <-> (a <= b)%Q.
Proof.
  unfold Qgtb. rewrite negb_false_iff. apply Qle_bool_iff.
Qed.

Lemma form_index_present key req v w :
  multidict_get key (form req) = Some v -> form_index key req w = (Ok v, w).
Proof. intros H. unfold form_index. rewrite H. reflexivity. Qed.

Lemma form_index_absent key req w :
  multidict_get key (form req) = None -> form_index key req w = (Abort 400, w).
Proof. intros H. unfold form_index. rewrite H. reflexivity. Qed.

(** ** The gate in front of the classification view *)

(** C4: a request to [/] whose [recaptcha_verified] cookie is absent or is
    not exactly ["true"] is answered, whatever its method, by a redirect to
    [/verify_recaptcha]; the world is left as it was, so no cache, liveness
    or classifier call is logged. *)
Theorem unverified_redirected :
  forall render_template feature_model net req w,
    ~ verified req ->
    detect_phishing render_template feature_model net req w
      = (Ok (Redirect "/verify_recaptcha" []), w)
    /\ events_of (detect_phishing render_template feature_model net req) w = [].
Proof.
  intros rt fm net req w Hnv.
  assert (E : detect_phishing rt fm net req w = (Ok (Redirect "/verify_recaptcha" []), w)).
  { unfold detect_phishing. destruct (decide _) as [Hv | _]; [ | reflexivity ].
    exfalso. apply Hnv. exact Hv. }
  split; [ exact E | ].
  apply events_of_same. rewrite E. reflexivity.
Qed.

(** C10: a verified POST without a [url] field fails at the indexing of the
    form with a 400; nothing is rendered and the world is left as it was. *)
Theorem missing_url_bad_request :
  forall render_template feature_model net req w,
    verified req ->
    method req = POST ->
    multidict_get "url" (form req) = None ->
    detect_phishing render_template feature_model net req w = (Abort 400, w)
    /\ events_of (detect_phishing render_template feature_model net req) w = [].
Proof.
  intros rt fm net req w Hv Hm Hu.
  assert (E : detect_phishing rt fm net req w = (Abort 400, w)).
  { unfold detect_phishing.
    destruct (decide _) as [_ | Hn]; [ | contradiction ].
    destruct (decide _) as [_ | Hn]; [ | contradiction ].
    unfold bind. rewrite (form_index_absent _ _ _ Hu). reflexivity. }
  split; [ exact E | ].
  apply events_of_same. rewrite E. reflexivity.
Qed.

(** ** The classification path *)

Lemma classify_failed fm net url w :
  liveness_failed net url ->
  classify fm net url w
    = (Ok ("Phishing", 100%Q, 0%Q), set_log w (log w ++ [EvRequestsGet url 5])).
Proof.
  intros [H | (s & H & Hs)]; cbv [classify bind http_get emit ret]; rewrite H.
  - reflexivity.
  - apply Z.eqb_neq in Hs. rewrite Hs. reflexivity.
Qed.

Lemma classify_live fm net url w :
  requests_get net url 5 = GetStatus 200 ->
  classify fm net url w
    = (Ok (threshold_label ((predict_proba fm url).1 * 100),
           ((predict_proba fm url).1 * 100)%Q,
           ((predict_proba fm url).2 * 100)%Q),
       set_log w (log w ++ [EvRequestsGet url 5; EvPredict url; EvPredictProba url])).
Proof.
  intros H.
  cbv [classify bind http_get model_predict model_predict_proba emit ret].
  rewrite H. cbn [Z.eqb Pos.eqb log set_log fst snd].
  unfold threshold_label.
  rewrite <- !app_assoc. cbn [app].
  destruct (Qgtb _ _); reflexivity.
Qed.

Lemma detect_phishing_miss rt fm net req w url result cp cl evs :
  verified req ->
  method req = POST ->
  multidict_get "url" (form req) = Some url ->
  str_truthy (cache_lookup (clock w) (cache_store w) url) = false ->
  classify fm net url (set_log w (log w ++ [EvCacheGet url]))
    = (Ok (result, cp, cl), set_log w (log w ++ EvCacheGet url :: evs)) ->
  let payload := rt "index.html" (index_context url result cp cl) in
  detect_phishing rt fm net req w
    = (Ok (Page payload),
       after_miss w url payload (EvCacheGet url :: evs ++ [EvCacheSet url payload 3600])).
Proof.
  intros Hv Hm Hu Hc Hcl payload.
  unfold detect_phishing.
  destruct (decide _) as [_ | Hn]; [ | contradiction ].
  destruct (decide _) as [_ | Hn]; [ | contradiction ].
  unfold bind at 1. rewrite (form_index_present _ _ _ _ Hu).
  unfold bind at 1. unfold cache_get at 1. unfold bind at 1. unfold emit at 1.
  cbn [clock cache_store set_log]. rewrite Hc.
  unfold bind at 1. rewrite Hcl.
  cbv [bind cache_set emit ret after_miss cache_expiry].
  cbn [clock cache_store set_log set_cache_store log db_session flashes contact_table Z.eqb].
  fold payload.
  rewrite <- !app_assoc. reflexivity.
Qed.

Lemma detect_phishing_hit rt fm net req w url payload :
  verified req ->
  method req = POST ->
  multidict_get "url" (form req) = Some url ->
  cache_lookup (clock w) (cache_store w) url = Some payload ->
  payload <> "" ->
  detect_phishing rt fm net req w
    = (Ok (Page payload), set_log w (log w ++ [EvCacheGet url])).
Proof.
  intros Hv Hm Hu Hc Hne.
  unfold detect_phishing.
  destruct (decide _) as [_ | Hn]; [ | contradiction ].
  destruct (decide _) as [_ | Hn]; [ | contradiction ].
  unfold bind at 1. rewrite (form_index_present _ _ _ _ Hu).
  unfold bind at 1. unfold cache_get at 1. unfold bind at 1. unfold emit at 1.
  cbn [clock cache_store set_log]. rewrite Hc.
  unfold str_truthy.
  destruct (String.eqb_spec payload "") as [E | _]; [ contradiction | ].
  reflexivity.
Qed.

Lemma no_entry_cache_miss w url : cache_store w !! url = None -> cache_miss w url.
Proof. intros H. unfold cache_miss, cache_lookup. rewrite H. reflexivity. Qed.

Lemma liveness_cases net url :
  liveness_failed net url \/ requests_get net url 5 = GetStatus 200.
Proof.
  unfold liveness_failed.
  destruct (requests_get net url 5) as [ | s] eqn:E; [ left; left; reflexivity | ].
  destruct (Z.eq_dec s 200) as [-> | Hs]; [ right; reflexivity | ].
  left; right. exists s. split; [ reflexivity | exact Hs ].
Qed.

Lemma liveness_failed_not_live net url :
  liveness_failed net url -> requests_get net url 5 <> GetStatus 200.
Proof.
  intros [H | (s & H & Hs)]; rewrite H; [ discriminate | ].
  intros E. injection E as E. contradiction.
Qed.

Lemma set_log_twice w l1 l2 : set_log (set_log w l1) l2 = set_log w l2.
Proof. reflexivity. Qed.

Lemma detect_phishing_failed rt fm net req w url :
  verified req ->
  method req = POST ->
  multidict_get "url" (form req) = Some url ->
  cache_miss w url ->
  liveness_failed net url ->
  let payload := rt "index.html" (index_context url "Phishing" 100 0) in
  detect_phishing rt fm net req w
    = (Ok (Page payload),
       after_miss w url payload
         [EvCacheGet url; EvRequestsGet url 5; EvCacheSet url payload 3600]).
Proof.
  intros Hv Hm Hu Hc Hf payload.
  apply (detect_phishing_miss rt fm net req w url "Phishing" 100%Q 0%Q
           [EvRequestsGet url 5] Hv Hm Hu Hc).
  rewrite (classify_failed fm net url _ Hf).
  rewrite set_log_twice. cbn [log set_log]. rewrite <- app_assoc. reflexivity.
Qed.

Lemma detect_phishing_live rt fm net req w url :
  verified req ->
  method req = POST ->
  multidict_get "url" (form req) = Some url ->
  cache_miss w url ->
  requests_get net url 5 = GetStatus 200 ->
  let cp := ((predict_proba fm url).1 * 100)%Q in
  let cl := ((predict_proba fm url).2 * 100)%Q in
  let payload := rt "index.html" (index_context url (threshold_label cp) cp cl) in
  detect_phishing rt fm net req w
    = (Ok (Page payload),
       after_miss w url payload
         [EvCacheGet url; EvRequestsGet url 5; EvPredict url; EvPredictProba url;
          EvCacheSet url payload 3600]).
Proof.
  intros Hv Hm Hu Hc Hl cp cl payload.
  apply (detect_phishing_miss rt fm net req w url (threshold_label cp) cp cl
           [EvRequestsGet url 5; EvPredict url; EvPredictProba url] Hv Hm Hu Hc).
  rewrite (classify_live fm net url _ Hl).
  rewrite set_log_twice. cbn [log set_log]. rewrite <- app_assoc. reflexivity.
Qed.

Lemma after_miss_events {A} (m : M A) r w url payload evs :
  m w = (r, after_miss w url payload evs) -> events_of m w = evs.
Proof. intros H. apply events_of_app. rewrite H. reflexivity. Qed.

(** C1: on a cache miss, when the liveness GET raises or answers with a
    status other than 200, the classification step yields ["Phishing"] with
    the scores 100.0 and 0.0, the page is rendered from exactly these
    values, and neither [predict] nor [predict_proba] is called. *)
Theorem liveness_failure_is_phishing :
  forall render_template feature_model net req w url,
    verified req ->
    method req = POST ->
    multidict_get "url" (form req) = Some url ->
    cache_miss w url ->
    liveness_failed net url ->
    let payload :=
      render_template "index.html"
        [("url", PyStr url); ("result", PyStr "Phishing");
         ("confidence_phishing_feature", PyFloat 100);
         ("confidence_legitimate_feature", PyFloat 0)] in
    (forall w0, (classify feature_model net url w0).1 = Ok ("Phishing", 100%Q, 0%Q))
    /\ (detect_phishing render_template feature_model net req w).1 = Ok (Page payload)
    /\ events_of (detect_phishing render_template feature_model net req) w
       = [EvCacheGet url; EvRequestsGet url 5; EvCacheSet url payload 3600]
    /\ forallb (fun e => negb (is_model_call e))
         (events_of (detect_phishing render_template feature_model net req) w) = true.
Proof.
  intros rt fm net req w url Hv Hm Hu Hc Hf payload.
  pose proof (detect_phishing_failed rt fm net req w url Hv Hm Hu Hc Hf) as E.
  cbv zeta in E. change (rt "index.html" (index_context url "Phishing" 100 0)) with payload in E.
  split; [ intros w0; rewrite (classify_failed fm net url w0 Hf); reflexivity | ].
  rewrite (after_miss_events _ _ _ _ _ _ E), E.
  repeat split.
Qed.

(** C2: when the liveness check answers 200, the label is decided by the
    strict comparison of the phishing score with 50: a score of exactly 50
    gives ["Legitimate"], every score above 50 gives ["Phishing"], and
    ["Phishing"] is given for no other score. *)
Theorem threshold_is_strict :
  forall render_template feature_model net req w url,
    verified req ->
    method req = POST ->
    multidict_get "url" (form req) = Some url ->
    cache_miss w url ->
    requests_get net url 5 = GetStatus 200 ->
    let cp := ((predict_proba feature_model url).1 * 100)%Q in
    let cl := ((predict_proba feature_model url).2 * 100)%Q in
    let outcome label :=
      (classify feature_model net url w).1 = Ok (label, cp, cl)
      /\ (detect_phishing render_template feature_model net req w).1
         = Ok (Page (render_template "index.html"
                       [("url", PyStr url); ("result", PyStr label);
                        ("confidence_phishing_feature", PyFloat cp);
                        ("confidence_legitimate_feature", PyFloat cl)])) in
    ((cp == 50)%Q -> outcome "Legitimate")
    /\ ((50 < cp)%Q -> outcome "Phishing")
    /\ ((cp <= 50)%Q -> outcome "Legitimate").
Proof.
  intros rt fm net req w url Hv Hm Hu Hc Hl cp cl outcome.
  pose proof (detect_phishing_live rt fm net req w url Hv Hm Hu Hc Hl) as E.
  pose proof (classify_live fm net url w Hl) as Ec.
  cbv zeta in E. fold cp cl in E, Ec.
  assert (Hout : outcome (threshold_label cp)).
  { split; [ rewrite Ec; reflexivity | rewrite E; reflexivity ]. }
  unfold threshold_label in Hout.
  split; [ | split ]; intros H.
  - assert (Hle : (cp <= 50)%Q) by (rewrite H; apply Qle_refl).
    apply Qgtb_false in Hle. rewrite Hle in Hout. exact Hout.
  - apply Qgtb_true in H. rewrite H in Hout. exact Hout.
  - apply Qgtb_false in H. rewrite H in Hout. exact Hout.
Qed.



(** ** The scores in binary64 arithmetic *)

Lemma digits2_pos_bounds (m : positive) :
  2 ^ (Zpos (digits2_pos m) - 1) <= Zpos m < 2 ^ Zpos (digits2_pos m).
Proof.
  induction m as [m IH | m IH | ]; cbn [digits2_pos].
  - rewrite Pos2Z.inj_succ.
    replace (Z.succ (Zpos (digits2_pos m)) - 1) with (Z.succ (Zpos (digits2_pos m) - 1)) by lia.
    rewrite !Z.pow_succ_r by lia. lia.
  - rewrite Pos2Z.inj_succ.
    replace (Z.succ (Zpos (digits2_pos m)) - 1) with (Z.succ (Zpos (digits2_pos m) - 1)) by lia.
    rewrite !Z.pow_succ_r by lia. lia.
  - cbn. lia.
Qed.

Lemma digits_le (m : positive) (k : Z) : Zpos m < 2 ^ k -> Zpos (digits2_pos m) <= k.
Proof.
  intros Hlt. pose proof (digits2_pos_bounds m) as [Hlo _].
  destruct (Z_le_gt_dec (Zpos (digits2_pos m)) k) as [H | H]; [ exact H | exfalso ].
  assert (2 ^ k <= 2 ^ (Zpos (digits2_pos m) - 1)) by (apply Z.pow_le_mono_r; lia).
  lia.
Qed.

Lemma digits_ge (m : positive) (k : Z) : 2 ^ (k - 1) <= Zpos m -> k <= Zpos (digits2_pos m).
Proof.
  intros Hle. pose proof (digits2_pos_bounds m) as [_ Hhi].
  destruct (Z_le_gt_dec k (Zpos (digits2_pos m))) as [H | H]; [ exact H | exfalso ].
  assert (2 ^ Zpos (digits2_pos m) <= 2 ^ (k - 1)) by (apply Z.pow_le_mono_r; lia).
  lia.
Qed.

Lemma shr_1_m (mrs : shr_record) :
  0 <= shr_m mrs -> shr_m (shr_1 mrs) = shr_m mrs / 2.
Proof.
  destruct mrs as [m r s]. cbn [shr_m shr_1]. intros Hm.
  destruct m as [ | [p | p | ] | p]; cbn [shr_m]; try lia.
  all: try reflexivity.
  - apply Z.div_unique with 1; lia.
  - apply Z.div_unique with 0; lia.
Qed.

Lemma iter_shr_m (n : positive) :
  forall mrs, 0 <= shr_m mrs ->
    shr_m (SpecFloat.iter_pos shr_1 n mrs) = shr_m mrs / 2 ^ Zpos n.
Proof.
  induction n as [n IH | n IH | ]; intros mrs Hm; cbn [SpecFloat.iter_pos];
    try (assert (Hp : 0 < 2 ^ Zpos n) by (apply Z.pow_pos_nonneg; lia)).
  - assert (H1 : 0 <= shr_m (shr_1 mrs)) by (rewrite shr_1_m by lia; apply Z.div_pos; lia).
    assert (H2 : 0 <= shr_m (SpecFloat.iter_pos shr_1 n (shr_1 mrs)))
      by (rewrite IH by lia; apply Z.div_pos; [ lia | apply Z.pow_pos_nonneg; lia ]).
    rewrite IH, IH, shr_1_m by lia.
    replace (Zpos n~1) with (1 + Zpos n + Zpos n) by lia.
    rewrite !Z.pow_add_r by lia. rewrite Z.pow_1_r.
    rewrite !Z.div_div by lia.
    f_equal. ring.
  - assert (H2 : 0 <= shr_m (SpecFloat.iter_pos shr_1 n mrs))
      by (rewrite IH by lia; apply Z.div_pos; [ lia | apply Z.pow_pos_nonneg; lia ]).
    rewrite IH, IH by lia.
    replace (Zpos n~0) with (Zpos n + Zpos n) by lia.
    rewrite Z.pow_add_r by lia.
    rewrite Z.div_div by lia.
    reflexivity.
  - rewrite shr_1_m by lia. reflexivity.
Qed.

Lemma round_nearest_even_bounds (m : Z) (l : location) :
  m <= round_nearest_even m l <= m + 1.
Proof.
  unfold round_nearest_even.
  destruct l as [ | [ | | ]]; try destruct (Z.even m); lia.
Qed.

Lemma fexp64 (x : Z) : fexp 53 1024 x = Z.max (x - 53) (-1074).
Proof. reflexivity. Qed.

Lemma shr_nonpos mrs e n : n <= 0 -> shr mrs e n = (mrs, e).
Proof. destruct n; [ reflexivity | lia | reflexivity ]. Qed.

Lemma first_shift (p : positive) (ex e1 : Z) :
  ex <= e1 ->
  exists mrs',
    shr {| shr_m := Zpos p; shr_r := false; shr_s := false |} ex (e1 - ex) = (mrs', e1)
    /\ shr_m mrs' = Zpos p / 2 ^ (e1 - ex).
Proof.
  intros Hle. destruct (e1 - ex) as [ | k | k] eqn:En; [ | | lia ].
  - eexists. split.
    + cbn [shr]. f_equal. lia.
    + cbn [shr_m]. rewrite Z.pow_0_r, Z.div_1_r. reflexivity.
  - eexists. split.
    + cbn [shr]. f_equal. lia.
    + apply iter_shr_m. cbn [shr_m]. lia.
Qed.

Lemma digits_le_53 (m : positive) : Zpos m < 2 ^ 53 -> Zpos (digits2_pos m) <= 53.
Proof.
  intros Hlt. pose proof (digits2_pos_bounds m) as [Hlo _].
  destruct (Z_le_gt_dec (Zpos (digits2_pos m)) 53) as [H | H]; [ exact H | exfalso ].
  assert (2 ^ 53 <= 2 ^ (Zpos (digits2_pos m) - 1)) by (apply Z.pow_le_mono_r; lia).
  lia.
Qed.

Lemma second_shift (r e1 : Z) :
  0 <= r <= 2 ^ 53 ->
  -1074 <= e1 ->
  e1 + 1 <= 971 ->
  (let '(mrs2, e2) := shr_fexp 53 1024 r e1 loc_Exact in
   match shr_m mrs2 with
   | Z0 => S754_zero false
   | Zpos m => if (e2 <=? 1024 - 53)%Z then S754_finite false m e2 else S754_infinity false
   | Zneg _ => S754_nan
   end) = b64_encode r e1.
Proof.
  intros Hr He Hmax. unfold shr_fexp. rewrite fexp64.
  destruct r as [ | m | m]; [ | | lia ].
  - cbn [Zdigits2 shr_record_of_loc]. rewrite shr_nonpos by lia. reflexivity.
  - cbn [Zdigits2 shr_record_of_loc b64_encode].
    destruct (Z.eqb_spec (Zpos m) (2 ^ 53)) as [E | Hne].
    + assert (Hd : Zpos (digits2_pos m) = 54).
      { apply Z.le_antisymm.
        - apply digits_le. rewrite E. reflexivity.
        - apply digits_ge. rewrite E. discriminate. }
      rewrite Hd. replace (Z.max _ _ - e1) with 1 by lia.
      cbn [shr SpecFloat.iter_pos].
      assert (Hhalf : shr_m (shr_1 {| shr_m := Zpos m; shr_r := false; shr_s := false |})
                      = Zpos (2 ^ 52)).
      { rewrite shr_1_m by (cbn [shr_m]; lia). cbn [shr_m]. rewrite E. reflexivity. }
      rewrite Hhalf.
      replace (e1 + 1 <=? 1024 - 53)%Z with true by (symmetry; apply Z.leb_le; lia).
      reflexivity.
    + assert (Hd : Zpos (digits2_pos m) <= 53) by (apply digits_le_53; lia).
      rewrite shr_nonpos by lia. cbn [shr_m].
      replace (e1 <=? 1024 - 53)%Z with true by (symmetry; apply Z.leb_le; lia).
      reflexivity.
Qed.

Lemma binary_round_aux_pos (p : positive) (ex : Z) :
  let e1 := Z.max (Zpos (digits2_pos p) + ex - 53) (-1074) in
  ex <= e1 ->
  e1 + 1 <= 971 ->
  exists r,
    Zpos p / 2 ^ (e1 - ex) <= r <= Zpos p / 2 ^ (e1 - ex) + 1
    /\ r <= 2 ^ 53
    /\ binary_round_aux 53 1024 false (Zpos p) ex loc_Exact = b64_encode r e1.
Proof.
  intros e1 Hle Hmax.
  destruct (first_shift p ex e1 Hle) as (mrs1 & Hshr & Hq).
  set (q := Zpos p / 2 ^ (e1 - ex)) in *.
  assert (Hpow : 0 < 2 ^ (e1 - ex)) by (apply Z.pow_pos_nonneg; lia).
  assert (Hq0 : 0 <= q) by (apply Z.div_pos; lia).
  assert (Hq53 : q < 2 ^ 53).
  { apply Z.div_lt_upper_bound; [ exact Hpow | ].
    rewrite <- Z.pow_add_r by lia.
    pose proof (digits2_pos_bounds p) as [_ Hhi].
    eapply Z.lt_le_trans; [ exact Hhi | ].
    apply Z.pow_le_mono_r; lia. }
  pose proof (round_nearest_even_bounds q (loc_of_shr_record mrs1)) as Hr.
  exists (round_nearest_even q (loc_of_shr_record mrs1)).
  split; [ exact Hr | ]. split; [ lia | ].
  unfold binary_round_aux.
  unfold shr_fexp at 1. rewrite fexp64. cbn [Zdigits2 shr_record_of_loc].
  fold e1. rewrite Hshr, Hq.
  apply second_shift; lia.
Qed.

Lemma pow2_52 : 2 ^ 52 = 4503599627370496.
Proof. reflexivity. Qed.

Lemma compare_cont_le (a b : positive) :
  match PosDef.Pos.compare_cont Eq a b with Gt => false | _ => true end = true ->
  Zpos a <= Zpos b.
Proof.
  change (PosDef.Pos.compare_cont Eq a b) with (Pos.compare a b).
  destruct (Pos.compare_spec a b); [ lia | lia | discriminate ].
Qed.

Lemma le_compare_cont (a b : positive) :
  Zpos a <= Zpos b ->
  match PosDef.Pos.compare_cont Eq a b with Gt => false | _ => true end = true.
Proof.
  change (PosDef.Pos.compare_cont Eq a b) with (Pos.compare a b).
  destruct (Pos.compare_spec a b); [ reflexivity | reflexivity | lia ].
Qed.

Lemma unit_interval_shape (x : spec_float) :
  b64_valid x = true ->
  b64_leb b64_zero x = true ->
  b64_leb x b64_one = true ->
  (exists s, x = S754_zero s)
  \/ x = b64_one
  \/ exists m e,
       x = S754_finite false m e
       /\ -1074 <= e <= -53
       /\ Zpos m < 2 ^ 53.
Proof.
  unfold b64_valid, b64_leb, b64_zero, b64_one, SFleb.
  destruct x as [s | s | | s m e]; cbn [valid_binary SFcompare].
  - intros _ _ _. left. exists s. reflexivity.
  - destruct s; intros _ H0 H1; discriminate.
  - intros _ H0 _. discriminate.
  - destruct s; [ intros _ H0 _; discriminate | ].
    unfold bounded, canonical_mantissa. rewrite fexp64.
    intros Hv _ H1. apply andb_prop in Hv as [Hc _]. apply Z.eqb_eq in Hc.
    assert (Hd : Zpos (digits2_pos m) <= 53 /\ -1074 <= e) by lia.
    assert (Hm : Zpos m < 2 ^ 53).
    { pose proof (digits2_pos_bounds m) as [_ Hhi].
      eapply Z.lt_le_trans; [ exact Hhi | apply Z.pow_le_mono_r; lia ]. }
    destruct (Z.compare_spec e (-52)) as [He | He | He]; [ | | discriminate ].
    + right. left. subst e.
      assert (Hd53 : Zpos (digits2_pos m) = 53) by lia.
      pose proof (digits2_pos_bounds m) as [Hlo _]. rewrite Hd53 in Hlo.
      change (53 - 1) with 52 in Hlo. rewrite pow2_52 in Hlo.
      apply compare_cont_le in H1.
      assert (Em : m = 4503599627370496%positive) by lia.
      subst m. reflexivity.
    + right. right. exists m, e. split; [ reflexivity | ]. split; [ lia | exact Hm ].
Qed.

Lemma mul_100_shape (m : positive) (e : Z) :
  -1074 <= e <= -53 ->
  Zpos m < 2 ^ 53 ->
  exists r e1,
    b64_mul (S754_finite false m e) b64_100 = b64_encode r e1
    /\ -1074 <= e1 <= -46
    /\ e - 46 <= e1
    /\ 0 <= r <= 2 ^ 53
    /\ r <= 7036874417766400 * 2 ^ (-46 - e1)
    /\ Z.abs (r * 2 ^ (e1 - (e - 46)) - Zpos m * 7036874417766400) <= 2 ^ (e1 - (e - 46)).
Proof.
  intros He Hm.
  assert (HM : 2 ^ 52 <= 7036874417766400 < 2 ^ 53) by (split; [ discriminate | reflexivity ]).
  change (b64_mul (S754_finite false m e) b64_100)
    with (binary_round_aux 53 1024 false (Zpos (m * 7036874417766400)) (e + -46) loc_Exact).
  set (M := 7036874417766400%positive) in *.
  replace (e + -46) with (e - 46) by lia.
  set (ex := e - 46).
  assert (Hmx : Zpos (m * M) = Zpos m * Zpos M) by apply Pos2Z.inj_mul.
  assert (Hpe : 2 ^ 53 <= 2 ^ (- e)) by (apply Z.pow_le_mono_r; lia).
  assert (Hd53 : 53 <= Zpos (digits2_pos (m * M))).
  { apply digits_ge. rewrite Hmx. change (53 - 1) with 52. nia. }
  assert (Hdle : Zpos (digits2_pos (m * M)) <= 53 - e).
  { apply digits_le. rewrite Hmx.
    replace (53 - e) with (- e + 53) by lia. rewrite Z.pow_add_r by lia. nia. }
  set (e1 := Z.max (Zpos (digits2_pos (m * M)) + ex - 53) (-1074)).
  assert (He1 : ex <= e1 /\ e1 <= -46 /\ -1074 <= e1) by (unfold e1, ex; lia).
  destruct (binary_round_aux_pos (m * M) ex) as (r & Hr & Hr53 & Hres);
    [ fold e1; lia | fold e1; lia | ].
  fold e1 in Hr, Hres.
  exists r, e1.
  set (n := e1 - ex) in *.
  assert (Hn : 0 <= n) by (unfold n; lia).
  assert (Hpn : 0 < 2 ^ n) by (apply Z.pow_pos_nonneg; lia).
  set (q := Zpos (m * M) / 2 ^ n) in *.
  assert (Hq0 : 0 <= q) by (apply Z.div_pos; lia).
  assert (Hdiv : q * 2 ^ n <= Zpos (m * M) < (q + 1) * 2 ^ n).
  { pose proof (Z.div_mod (Zpos (m * M)) (2 ^ n)) as Hdm.
    pose proof (Z.mod_pos_bound (Zpos (m * M)) (2 ^ n) Hpn) as Hmod.
    fold q in Hdm. specialize (Hdm ltac:(lia)). nia. }
  split; [ exact Hres | ].
  split; [ lia | ]. split; [ lia | ]. split; [ lia | ].
  split.
  - set (k := -46 - e1).
    assert (Hk : 0 <= k) by (unfold k; lia).
    assert (Hq : q < Zpos M * 2 ^ k).
    { apply Z.div_lt_upper_bound; [ exact Hpn | ].
      replace (2 ^ n * (Zpos M * 2 ^ k)) with (Zpos M * 2 ^ (n + k))
        by (rewrite Z.pow_add_r by lia; ring).
      replace (n + k) with (- e) by (unfold n, k, ex; lia).
      rewrite Hmx. nia. }
    lia.
  - rewrite <- Hmx. apply Z.abs_le. nia.
Qed.

Lemma encode_nonneg (r e1 : Z) :
  0 <= r -> b64_leb b64_zero (b64_encode r e1) = true.
Proof.
  intros Hr. unfold b64_encode. destruct r as [ | p | p]; [ reflexivity | | lia ].
  destruct (Zpos p =? 2 ^ 53)%Z; reflexivity.
Qed.

Lemma encode_le_100 (r e1 : Z) :
  0 <= r <= 2 ^ 53 ->
  e1 <= -46 ->
  r <= 7036874417766400 * 2 ^ (-46 - e1) ->
  b64_leb (b64_encode r e1) b64_100 = true.
Proof.
  intros Hr He Hb. unfold b64_encode, b64_leb, b64_100, SFleb.
  destruct r as [ | p | p]; [ reflexivity | | lia ].
  assert (Hk : e1 = -46 \/ e1 <= -47) by lia.
  destruct (Z.eqb_spec (Zpos p) (2 ^ 53)) as [E | Hne]; cbn [SFcompare].
  - destruct Hk as [-> | Hk].
    + exfalso. rewrite E in Hb. change (-46 - -46) with 0 in Hb.
      rewrite Z.pow_0_r in Hb. apply Hb. reflexivity.
    + destruct (Z.compare_spec (e1 + 1) (-46)) as [Hc | Hc | Hc]; [ | reflexivity | lia ].
      apply le_compare_cont. discriminate.
  - destruct (Z.compare_spec e1 (-46)) as [Hc | Hc | Hc]; [ | reflexivity | lia ].
    apply le_compare_cont. subst e1. change (-46 - -46) with 0 in Hb.
    rewrite Z.pow_0_r in Hb. lia.
Qed.

Lemma encode_value (r e1 : Z) :
  0 <= r -> (b64_value (b64_encode r e1) == inject_Z r * 2 ^ e1)%Q.
Proof.
  intros Hr. unfold b64_encode. destruct r as [ | p | p]; [ | | lia ].
  - cbn [b64_value]. rewrite Qmult_0_l. reflexivity.
  - destruct (Z.eqb_spec (Zpos p) (2 ^ 53)) as [E | Hne]; cbn [b64_value cond_Zopp].
    + rewrite E, Qpower_plus by discriminate.
      change (2 ^ 1)%Q with 2%Q.
      change (inject_Z (Zpos (2 ^ 52))) with (inject_Z (2 ^ 52)).
      change (inject_Z (2 ^ 53)) with (inject_Z (2 * 2 ^ 52)).
      rewrite inject_Z_mult. change (inject_Z 2) with 2%Q. ring.
    + reflexivity.
Qed.

Lemma mul_100_range (x : spec_float) :
  b64_valid x = true ->
  b64_leb b64_zero x = true ->
  b64_leb x b64_one = true ->
  b64_leb b64_zero (b64_mul x b64_100) = true
  /\ b64_leb (b64_mul x b64_100) b64_100 = true.
Proof.
  intros Hv H0 H1.
  destruct (unit_interval_shape x Hv H0 H1) as [[s ->] | [-> | (m & e & -> & He & Hm)]].
  - destruct s; split; reflexivity.
  - split; vm_compute; reflexivity.
  - destruct (mul_100_shape m e He Hm) as (r & e1 & -> & He1 & _ & Hr & Hb & _).
    split; [ apply encode_nonneg; lia | apply encode_le_100; lia ].
Qed.

Lemma hundred_value : (inject_Z 7036874417766400 * 2 ^ (-46) == 100)%Q.
Proof. vm_compute. reflexivity. Qed.

Lemma mul_100_error (x : spec_float) :
  b64_valid x = true ->
  b64_leb b64_zero x = true ->
  b64_leb x b64_one = true ->
  (100 * b64_value x - 2 ^ (-46) <= b64_value (b64_mul x b64_100)
   /\ b64_value (b64_mul x b64_100) <= 100 * b64_value x + 2 ^ (-46))%Q.
Proof.
  intros Hv H0 H1.
  assert (Heps : (0 < 2 ^ (-46))%Q) by (apply Qpower_0_lt; reflexivity).
  destruct (unit_interval_shape x Hv H0 H1) as [[s ->] | [-> | (m & e & -> & He & Hm)]].
  - assert (E : b64_mul (S754_zero s) b64_100 = S754_zero (xorb s false)) by reflexivity.
    rewrite E. cbn [b64_value]. split; lra.
  - assert (E : b64_mul b64_one b64_100 = b64_100) by (vm_compute; reflexivity).
    rewrite E.
    assert (E1 : (b64_value b64_one == 1)%Q) by (vm_compute; reflexivity).
    assert (E2 : (b64_value b64_100 == 100)%Q) by (vm_compute; reflexivity).
    rewrite E1, E2. split; lra.
  - destruct (mul_100_shape m e He Hm) as (r & e1 & -> & He1 & Hex & Hr & _ & Habs).
    rewrite encode_value by lia.
    cbn [b64_value cond_Zopp].
    set (n := e1 - (e - 46)) in *.
    assert (Hn : (0 <= n)%Z) by (unfold n; lia).
    set (P := (2 ^ (e - 46))%Q).
    assert (HP : (0 < P)%Q) by (apply Qpower_0_lt; reflexivity).
    assert (He1P : (2 ^ e1 == inject_Z (2 ^ n) * P)%Q).
    { replace e1 with (n + (e - 46))%Z by (unfold n; lia).
      rewrite Qpower_plus by discriminate.
      rewrite Zpower_Qpower by exact Hn. reflexivity. }
    assert (HxP : (100 * (inject_Z (Zpos m) * 2 ^ e)
                   == inject_Z (Zpos m * 7036874417766400) * P)%Q).
    { unfold P. replace (e - 46)%Z with (e + -46)%Z by lia.
      rewrite Qpower_plus by discriminate.
      rewrite inject_Z_mult, <- hundred_value. ring. }
    assert (Hle : (2 ^ e1 <= 2 ^ (-46))%Q)
      by (apply Qpower_le_compat_l; [ lia | discriminate ]).
    apply Z.abs_le in Habs as [Hlo Hhi].
    set (X := inject_Z (Zpos m * 7036874417766400)) in *.
    set (N := inject_Z (2 ^ n)) in *.
    assert (HR : (inject_Z r * 2 ^ e1 == inject_Z (r * 2 ^ n) * P)%Q).
    { rewrite He1P, inject_Z_mult. fold N. ring. }
    assert (Hlo' : (X - N <= inject_Z (r * 2 ^ n))%Q).
    { unfold X, N, Qminus. rewrite <- inject_Z_opp, <- inject_Z_plus. rewrite <- Zle_Qle. lia. }
    assert (Hhi' : (inject_Z (r * 2 ^ n) <= X + N)%Q).
    { unfold X, N. rewrite <- inject_Z_plus. rewrite <- Zle_Qle. lia. }
    apply (Qmult_le_compat_r _ _ P) in Hlo'; [ | lra ].
    apply (Qmult_le_compat_r _ _ P) in Hhi'; [ | lra ].
    rewrite HR, HxP. rewrite He1P in Hle. fold N in Hle.
    split; lra.
Qed.

Lemma classify_binary64_failed fm net url w :
  liveness_failed net url ->
  classify_binary64 fm net url w
    = (Ok ("Phishing", b64_100, b64_zero), set_log w (log w ++ [EvRequestsGet url 5])).
Proof.
  intros [H | (s & H & Hs)]; cbv [classify_binary64 bind http_get emit ret]; rewrite H.
  - reflexivity.
  - apply Z.eqb_neq in Hs. rewrite Hs. reflexivity.
Qed.

Lemma classify_binary64_live fm net url w :
  requests_get net url 5 = GetStatus 200 ->
  classify_binary64 fm net url w
    = (Ok (if b64_gt (b64_mul (predict_proba64 fm url).1 b64_100) b64_50
           then "Phishing" else "Legitimate",
           b64_mul (predict_proba64 fm url).1 b64_100,
           b64_mul (predict_proba64 fm url).2 b64_100),
       set_log w (log w ++ [EvRequestsGet url 5; EvPredict url; EvPredictProba url])).
Proof.
  intros H.
  cbv [classify_binary64 bind http_get emit ret].
  rewrite H. cbn [Z.eqb Pos.eqb log set_log fst snd].
  rewrite <- !app_assoc. cbn [app].
  destruct (b64_gt _ _); reflexivity.
Qed.

(** C7, as amended: every result of the classification step has both scores
    between 0 and 100.  When the liveness check failed they are exactly 100
    and 0.  When they come from the model, whose probabilities are binary64
    numbers between 0 and 1, each score is its probability times 100 rounded
    to binary64; for probabilities that sum to 1 the scores then sum to 100
    up to that rounding, within [2 ^ (-45)], and not always exactly. *)
Theorem confidence_invariant_binary64 :
  forall feature_model net url w,
    let p := predict_proba64 feature_model url in
    b64_valid p.1 = true ->
    b64_leb b64_zero p.1 = true ->
    b64_leb p.1 b64_one = true ->
    b64_valid p.2 = true ->
    b64_leb b64_zero p.2 = true ->
    b64_leb p.2 b64_one = true ->
    exists label cp cl w',
      classify_binary64 feature_model net url w = (Ok (label, cp, cl), w')
      /\ (requests_get net url 5 = GetStatus 200 ->
          cp = b64_mul p.1 b64_100
          /\ cl = b64_mul p.2 b64_100
          /\ ((b64_value p.1 + b64_value p.2 == 1)%Q ->
              (100 - 2 ^ (-45) <= b64_value cp + b64_value cl)%Q
              /\ (b64_value cp + b64_value cl <= 100 + 2 ^ (-45))%Q))
      /\ (liveness_failed net url -> cp = b64_100 /\ cl = b64_zero)
      /\ b64_leb b64_zero cp = true
      /\ b64_leb cp b64_100 = true
      /\ b64_leb b64_zero cl = true
      /\ b64_leb cl b64_100 = true.
Proof.
  intros fm net url w p Hv1 Hlo1 Hhi1 Hv2 Hlo2 Hhi2.
  destruct (liveness_cases net url) as [Hf | Hl].
  - exists "Phishing", b64_100, b64_zero. eexists.
    split; [ apply (classify_binary64_failed fm net url w Hf) | ].
    split; [ intros Hl; exfalso; exact (liveness_failed_not_live _ _ Hf Hl) | ].
    split; [ intros _; split; reflexivity | ].
    repeat split.
  - pose proof (mul_100_range p.1 Hv1 Hlo1 Hhi1) as [Hr1 Hr1'].
    pose proof (mul_100_range p.2 Hv2 Hlo2 Hhi2) as [Hr2 Hr2'].
    eexists _, (b64_mul p.1 b64_100), (b64_mul p.2 b64_100), _.
    split; [ apply (classify_binary64_live fm net url w Hl) | ].
    split.
    + intros _. split; [ reflexivity | ]. split; [ reflexivity | ].
      intros Hsum.
      pose proof (mul_100_error p.1 Hv1 Hlo1 Hhi1) as [He1 He1'].
      pose proof (mul_100_error p.2 Hv2 Hlo2 Hhi2) as [He2 He2'].
      assert (Heps : (2 ^ (-46) + 2 ^ (-46) == 2 ^ (-45))%Q) by (vm_compute; reflexivity).
      split; lra.
    + split; [ intros Hf; exfalso; exact (liveness_failed_not_live _ _ Hf Hl) | ].
      repeat split; assumption.
Qed.

(** C7 as it was stated fails in binary64.  The probabilities 1 - 0.641 and
    0.641 are between 0 and 1 and sum to exactly 1, yet the two scores the
    code computes from them do not sum to 100.  With 0.021 and 0.979, whose
    float sum is 1.0, the float sum of the scores is not 100.0 either. *)
Lemma confidence_sum_counterexample :
  b64_valid Sample.p_0359 = true
  /\ b64_valid Sample.p_0641 = true
  /\ b64_leb b64_zero Sample.p_0359 = true
  /\ b64_leb Sample.p_0359 b64_one = true
  /\ b64_leb b64_zero Sample.p_0641 = true
  /\ b64_leb Sample.p_0641 b64_one = true
  /\ (b64_value Sample.p_0359 + b64_value Sample.p_0641 == 1)%Q
  /\ (exists cp cl,
         (classify_binary64 Sample.model64 Sample.net_up Sample.target Sample.world).1
           = Ok ("Legitimate", cp, cl)
         /\ ~ (b64_value cp + b64_value cl == 100)%Q)
  /\ b64_add Sample.p_0021 Sample.p_0979 = b64_one
  /\ b64_add (b64_mul Sample.p_0021 b64_100) (b64_mul Sample.p_0979 b64_100) <> b64_100.
Proof.
  split; [ reflexivity | ]. split; [ reflexivity | ].
  split; [ reflexivity | ]. split; [ reflexivity | ].
  split; [ reflexivity | ]. split; [ reflexivity | ].
  split; [ vm_compute; reflexivity | ].
  split.
  - exists (S754_finite false 5052475831956275 (-47)),
           (S754_finite false 4510636501788262 (-46)).
    split; [ vm_compute; reflexivity | ].
    vm_compute. discriminate.
  - split; [ vm_compute; reflexivity | ].
    vm_compute. discriminate.
Qed.

(** C3: on a cache miss a verified POST of [url] stores the rendered page
    under the string [url] itself, to expire 3600 seconds after the write;
    entries under other strings are untouched; and while that entry is
    unexpired, any verified POST of the same string is answered with the
    stored page, with a cache read as its only interaction.  The index page
    is assumed never to render to the empty string. *)
Theorem cache_by_raw_url :
  forall render_template feature_model net req w url,
    (forall ctx, render_template "index.html" ctx <> "") ->
    verified req ->
    method req = POST ->
    multidict_get "url" (form req) = Some url ->
    cache_miss w url ->
    exists payload w1,
      detect_phishing render_template feature_model net req w = (Ok (Page payload), w1)
      /\ cache_store w1 = <[url := (payload, clock w + 3600)]> (cache_store w)
      /\ In (EvCacheSet url payload 3600)
           (events_of (detect_phishing render_template feature_model net req) w)
      /\ (forall other, other <> url -> cache_store w1 !! other = cache_store w !! other)
      /\ (forall net2 req2 w2,
             verified req2 ->
             method req2 = POST ->
             multidict_get "url" (form req2) = Some url ->
             cache_store w2 !! url = cache_store w1 !! url ->
             clock w2 <= clock w + 3600 ->
             detect_phishing render_template feature_model net2 req2 w2
               = (Ok (Page payload), set_log w2 (log w2 ++ [EvCacheGet url]))
             /\ events_of (detect_phishing render_template feature_model net2 req2) w2
                = [EvCacheGet url]).
Proof.
  intros rt fm net req w url Hrt Hv Hm Hu Hc.
  assert (Hmiss : exists result cp cl evs,
             let payload := rt "index.html" (index_context url result cp cl) in
             detect_phishing rt fm net req w
               = (Ok (Page payload), after_miss w url payload (evs ++ [EvCacheSet url payload 3600]))).
  { destruct (liveness_cases net url) as [Hf | Hl].
    - exists "Phishing", 100%Q, 0%Q, [EvCacheGet url; EvRequestsGet url 5].
      apply (detect_phishing_failed rt fm net req w url Hv Hm Hu Hc Hf).
    - eexists _, _, _, [EvCacheGet url; EvRequestsGet url 5; EvPredict url; EvPredictProba url].
      apply (detect_phishing_live rt fm net req w url Hv Hm Hu Hc Hl). }
  destruct Hmiss as (result & cp & cl & evs & E). cbv zeta in E.
  set (payload := rt "index.html" (index_context url result cp cl)) in *.
  exists payload, (after_miss w url payload (evs ++ [EvCacheSet url payload 3600])).
  split; [ exact E | ].
  split; [ reflexivity | ].
  split; [ rewrite (after_miss_events _ _ _ _ _ _ E); apply in_or_app; right; left; reflexivity | ].
  split.
  - intros other Hne. unfold after_miss. cbn [cache_store set_cache_store].
    apply lookup_insert_ne. congruence.
  - intros net2 req2 w2 Hv2 Hm2 Hu2 Hsame Hclock.
    assert (Hhit : cache_lookup (clock w2) (cache_store w2) url = Some payload).
    { unfold cache_lookup. rewrite Hsame. unfold after_miss.
      cbn [cache_store set_cache_store]. rewrite lookup_insert_eq.
      apply Z.leb_le in Hclock. rewrite Hclock, orb_true_r. reflexivity. }
    pose proof (detect_phishing_hit rt fm net2 req2 w2 url payload Hv2 Hm2 Hu2 Hhit (Hrt _)) as E2.
    split; [ exact E2 | ].
    apply events_of_app. rewrite E2. reflexivity.
Qed.

(** ** The CAPTCHA gate *)

(** ** The contact table *)

Lemma foldr_max_ge (k0 : Z) (ks : list Z) (k : Z) :
  k ∈ k0 :: ks -> k <= foldr Z.max k0 ks.
Proof.
  induction ks as [ | k1 ks IH]; intros Hin.
  - apply list_elem_of_singleton in Hin. subst. apply Z.le_refl.
  - cbn [foldr].
    apply elem_of_cons in Hin as [-> | Hin].
    + etransitivity; [ apply IH; left | apply Z.le_max_r ].
    + apply elem_of_cons in Hin as [-> | Hin].
      * apply Z.le_max_l.
      * etransitivity; [ apply IH; right; exact Hin | apply Z.le_max_r ].
Qed.

Lemma next_rowid_above (t : gmap Z (string * string * string)) (k : Z) :
  is_Some (t !! k) -> k < next_rowid t.
Proof.
  intros [row Hk]. unfold next_rowid.
  assert (Hin : k ∈ (map_to_list t).*1).
  { apply list_elem_of_fmap. exists (k, row). split; [ reflexivity | ].
    apply elem_of_map_to_list. exact Hk. }
  destruct ((map_to_list t).*1) as [ | k0 ks].
  - apply elem_of_nil in Hin. contradiction.
  - pose proof (foldr_max_ge k0 ks k Hin). lia.
Qed.

Lemma next_rowid_fresh (t : gmap Z (string * string * string)) :
  t !! next_rowid t = None.
Proof.
  destruct (t !! next_rowid t) as [row | ] eqn:E; [ | reflexivity ].
  pose proof (next_rowid_above t (next_rowid t) (mk_is_Some _ _ E)). lia.
Qed.

Lemma listed_contacts_length (w : World) :
  length (listed_contacts w) = size (contact_table w).
Proof. unfold listed_contacts. rewrite length_fmap. apply length_map_to_list. Qed.

Lemma listed_contacts_elem (w : World) (c : Contact) :
  c ∈ listed_contacts w <->
  contact_table w !! contact_id c
    = Some (contact_name c, contact_email c, contact_message c).
Proof.
  unfold listed_contacts. rewrite list_elem_of_fmap. split.
  - intros ([k [[n e] m]] & -> & Hin). apply elem_of_map_to_list in Hin. exact Hin.
  - intros H. exists (contact_id c, (contact_name c, contact_email c, contact_message c)).
    split; [ destruct c; reflexivity | apply elem_of_map_to_list; exact H ].
Qed.

(** C5: a contact submission whose [name], [email] and [message] fields are
    present inserts exactly one row, under a fresh key and beside the rows
    already there, and shows the success page; when one of the fields is
    absent the request ends with a 400 and the world is left as it was. *)
Theorem contact_creation :
  forall render_template req w,
    db_session w = [] ->
    (forall name email message,
        multidict_get "name" (form req) = Some name ->
        multidict_get "email" (form req) = Some email ->
        multidict_get "message" (form req) = Some message ->
        let t := contact_table w in
        exists w',
          submit_contact render_template req w
            = (Ok (Page (render_template "contact.html" [("success", PyBool true)])), w')
          /\ t !! next_rowid t = None
          /\ contact_table w' = <[next_rowid t := (name, email, message)]> t
          /\ size (contact_table w') = S (size t)
          /\ forall id row, t !! id = Some row -> contact_table w' !! id = Some row)
    /\ (multidict_get "name" (form req) = None
        \/ multidict_get "email" (form req) = None
        \/ multidict_get "message" (form req) = None ->
        submit_contact render_template req w = (Abort 400, w)).
Proof.
  intros rt req w Hs. split.
  - intros name email message Hn He Hmsg t.
    eexists. split.
    + unfold submit_contact, form_index. rewrite Hn, He, Hmsg.
      cbv [bind ret db_session_add db_session_commit emit].
      cbn [db_session set_log set_db_session set_contact_table contact_table log
           clock cache_store flashes].
      rewrite Hs. cbn [app foldl apply_pending]. reflexivity.
    + cbn [contact_table]. fold t.
      split; [ apply next_rowid_fresh | ].
      split; [ reflexivity | ].
      split; [ apply map_size_insert_None, next_rowid_fresh | ].
      intros id row Hid. cbn [contact_table set_db_session set_contact_table]. rewrite lookup_insert_ne; [ exact Hid | ].
      intros E. rewrite <- E, next_rowid_fresh in Hid. discriminate.
  - unfold submit_contact, form_index. cbv [bind ret abort].
    destruct (multidict_get "name" (form req)); [ | reflexivity ].
    destruct (multidict_get "email" (form req)); [ | reflexivity ].
    destruct (multidict_get "message" (form req)); [ | reflexivity ].
    intros [H | [H | H]]; discriminate.
Qed.

(** C8: deleting an id that is not in the table ends with a 404 and leaves
    the table as it was; deleting an id that is there removes that row and
    no other, flashes the confirmation and redirects to the listing, which
    then shows every former row but the deleted one. *)
Theorem contact_deletion :
  forall render_template id w,
    (contact_table w !! id = None ->
       delete_contact id w = (Abort 404, set_log w (log w ++ [EvDbGet id]))
       /\ contact_table (delete_contact id w).2 = contact_table w)
    /\ (forall row,
          contact_table w !! id = Some row ->
          db_session w = [] ->
          exists w',
            delete_contact id w = (Ok (Redirect "/view_contacts" []), w')
            /\ contact_table w' = delete id (contact_table w)
            /\ S (size (contact_table w')) = size (contact_table w)
            /\ flashes w' = flashes w ++ [("success", "Contact deleted successfully.")]
            /\ (view_contacts render_template w').1
               = Ok (Page (render_template "view_contacts.html"
                             [("contacts", PyContacts (listed_contacts w'))]))
            /\ (forall c, c ∈ listed_contacts w' <->
                          c ∈ listed_contacts w /\ contact_id c <> id)
            /\ S (length (listed_contacts w')) = length (listed_contacts w)).
Proof.
  intros rt id w. split.
  - intros Hnone.
    assert (E : delete_contact id w = (Abort 404, set_log w (log w ++ [EvDbGet id]))).
    { cbv [delete_contact get_or_404 bind emit].
      cbn [contact_table set_log]. rewrite Hnone. reflexivity. }
    split; [ exact E | rewrite E; reflexivity ].
  - intros row Hrow Hs.
    assert (Hsize : S (size (delete id (contact_table w))) = size (contact_table w)).
    { rewrite map_size_delete, Hrow.
      pose proof (map_size_ne_0_lookup_2 (contact_table w) id (mk_is_Some _ _ Hrow)).
      destruct (size (contact_table w)); [ contradiction | reflexivity ]. }
    eexists. split.
    + cbv [delete_contact get_or_404 db_session_delete db_session_commit flash bind emit ret].
      cbn [contact_table set_log set_db_session set_contact_table set_flashes db_session
           log clock cache_store flashes].
      rewrite Hrow.
      cbn [contact_table set_log set_db_session set_contact_table set_flashes db_session
           log clock cache_store flashes].
      rewrite Hs. cbn [app foldl apply_pending contact_id row_to_contact fst].
      reflexivity.
    + cbn [contact_table flashes].
      split; [ reflexivity | ].
      split; [ exact Hsize | ].
      split; [ reflexivity | ].
      split; [ reflexivity | ].
      split.
      * intros c. rewrite !listed_contacts_elem.
        cbn [contact_table set_flashes set_log set_db_session set_contact_table].
        rewrite lookup_delete_Some. split.
        -- intros [Hne H]. split; [ exact H | congruence ].
        -- intros [H Hne]. split; [ congruence | exact H ].
      * rewrite !listed_contacts_length.
        cbn [contact_table set_flashes set_log set_db_session set_contact_table].
        exact Hsize.
Qed.

(** ** The theorems at concrete requests *)

Lemma sample_render_index_nonempty ctx : Sample.render "index.html" ctx <> "".
Proof. discriminate. Defined.

Lemma sample_down_failed : liveness_failed Sample.net_down Sample.target.
Proof. left. reflexivity. Defined.

Lemma sample_world_miss : cache_miss Sample.world Sample.target.
Proof. reflexivity. Defined.

Lemma unverified_redirected_witness :
  ~ verified Sample.post_unverified
  /\ detect_phishing Sample.render Sample.model Sample.net_up Sample.post_unverified Sample.world
     = (Ok (Redirect "/verify_recaptcha" []), Sample.world).
Proof.
  assert (H : ~ verified Sample.post_unverified) by discriminate.
  split; [ exact H | ].
  exact (proj1 (unverified_redirected Sample.render Sample.model Sample.net_up
                  Sample.post_unverified Sample.world H)).
Defined.

Lemma missing_url_bad_request_witness :
  verified Sample.post_empty
  /\ method Sample.post_empty = POST
  /\ multidict_get "url" (form Sample.post_empty) = None
  /\ detect_phishing Sample.render Sample.model Sample.net_up Sample.post_empty Sample.world
     = (Abort 400, Sample.world).
Proof.
  split; [ reflexivity | ]. split; [ reflexivity | ]. split; [ reflexivity | ].
  exact (proj1 (missing_url_bad_request Sample.render Sample.model Sample.net_up
                  Sample.post_empty Sample.world eq_refl eq_refl eq_refl)).
Defined.

Lemma liveness_failure_is_phishing_witness :
  verified Sample.post_url
  /\ method Sample.post_url = POST
  /\ multidict_get "url" (form Sample.post_url) = Some Sample.target
  /\ cache_miss Sample.world Sample.target
  /\ liveness_failed Sample.net_down Sample.target
  /\ (classify Sample.model Sample.net_down Sample.target Sample.world).1
     = Ok ("Phishing", 100%Q, 0%Q)
  /\ (detect_phishing Sample.render Sample.model Sample.net_down Sample.post_url Sample.world).1
     = Ok (Page (Sample.render "index.html"
                   [("url", PyStr Sample.target); ("result", PyStr "Phishing");
                    ("confidence_phishing_feature", PyFloat 100);
                    ("confidence_legitimate_feature", PyFloat 0)])).
Proof.
  split; [ reflexivity | ]. split; [ reflexivity | ]. split; [ reflexivity | ].
  split; [ exact sample_world_miss | ]. split; [ exact sample_down_failed | ].
  destruct (liveness_failure_is_phishing Sample.render Sample.model Sample.net_down
              Sample.post_url Sample.world Sample.target
              eq_refl eq_refl eq_refl sample_world_miss sample_down_failed)
    as (Hclassify & Hpage & _).
  split; [ exact (Hclassify Sample.world) | exact Hpage ].
Defined.

Lemma threshold_is_strict_witness :
  verified Sample.post_url
  /\ method Sample.post_url = POST
  /\ multidict_get "url" (form Sample.post_url) = Some Sample.target
  /\ cache_miss Sample.world Sample.target
  /\ requests_get Sample.net_up Sample.target 5 = GetStatus 200
  /\ (classify Sample.model Sample.net_up Sample.target Sample.world).1
     = Ok ("Legitimate", ((1 # 2) * 100)%Q, ((1 # 2) * 100)%Q)
  /\ (detect_phishing Sample.render Sample.model Sample.net_up Sample.post_url Sample.world).1
     = Ok (Page (Sample.render "index.html"
                   [("url", PyStr Sample.target); ("result", PyStr "Legitimate");
                    ("confidence_phishing_feature", PyFloat ((1 # 2) * 100));
                    ("confidence_legitimate_feature", PyFloat ((1 # 2) * 100))]))
  /\ (classify Sample.skewed_model Sample.net_up Sample.target Sample.world).1
     = Ok ("Phishing", ((7 # 10) * 100)%Q, ((3 # 10) * 100)%Q).
Proof.
  split; [ reflexivity | ]. split; [ reflexivity | ]. split; [ reflexivity | ].
  split; [ exact sample_world_miss | ]. split; [ reflexivity | ].
  destruct (threshold_is_strict Sample.render Sample.model Sample.net_up
              Sample.post_url Sample.world Sample.target
              eq_refl eq_refl eq_refl sample_world_miss eq_refl)
    as (H50 & _ & _).
  destruct (threshold_is_strict Sample.render Sample.skewed_model Sample.net_up
              Sample.post_url Sample.world Sample.target
              eq_refl eq_refl eq_refl sample_world_miss eq_refl)
    as (_ & Habove & _).
  destruct (H50 eq_refl) as [Hc Hp].
  split; [ exact Hc | ]. split; [ exact Hp | ].
  exact (proj1 (Habove eq_refl)).
Defined.


Lemma confidence_invariant_binary64_witness :
  let p := predict_proba64 Sample.model64 Sample.target in
  b64_valid p.1 = true
  /\ b64_leb b64_zero p.1 = true
  /\ b64_leb p.1 b64_one = true
  /\ b64_valid p.2 = true
  /\ b64_leb b64_zero p.2 = true
  /\ b64_leb p.2 b64_one = true
  /\ (b64_value p.1 + b64_value p.2 == 1)%Q
  /\ exists label cp cl w',
       classify_binary64 Sample.model64 Sample.net_up Sample.target Sample.world
         = (Ok (label, cp, cl), w')
       /\ b64_leb cp b64_100 = true
       /\ b64_leb cl b64_100 = true
       /\ (100 - 2 ^ (-45) <= b64_value cp + b64_value cl)%Q
       /\ (b64_value cp + b64_value cl <= 100 + 2 ^ (-45))%Q.
Proof.
  assert (Hsum : (b64_value Sample.p_0359 + b64_value Sample.p_0641 == 1)%Q)
    by (vm_compute; reflexivity).
  split; [ reflexivity | ]. split; [ reflexivity | ]. split; [ reflexivity | ].
  split; [ reflexivity | ]. split; [ reflexivity | ]. split; [ reflexivity | ].
  split; [ exact Hsum | ].
  destruct (confidence_invariant_binary64 Sample.model64 Sample.net_up Sample.target
              Sample.world eq_refl eq_refl eq_refl eq_refl eq_refl eq_refl)
    as (label & cp & cl & w' & E & Hlive & _ & _ & Hcp & _ & Hcl).
  exists label, cp, cl, w'.
  split; [ exact E | ]. split; [ exact Hcp | ]. split; [ exact Hcl | ].
  destruct (Hlive eq_refl) as (-> & -> & Hbound).
  exact (Hbound Hsum).
Defined.

Lemma cache_by_raw_url_witness :
  (forall ctx, Sample.render "index.html" ctx <> "")
  /\ verified Sample.post_url
  /\ method Sample.post_url = POST
  /\ multidict_get "url" (form Sample.post_url) = Some Sample.target
  /\ cache_miss Sample.world Sample.target
  /\ exists payload w1,
       detect_phishing Sample.render Sample.model Sample.net_down Sample.post_url Sample.world
         = (Ok (Page payload), w1)
       /\ detect_phishing Sample.render Sample.model Sample.net_up Sample.post_url w1
          = (Ok (Page payload), set_log w1 (log w1 ++ [EvCacheGet Sample.target])).
Proof.
  split; [ exact sample_render_index_nonempty | ].
  split; [ reflexivity | ]. split; [ reflexivity | ]. split; [ reflexivity | ].
  split; [ exact sample_world_miss | ].
  destruct (cache_by_raw_url Sample.render Sample.model Sample.net_down
              Sample.post_url Sample.world Sample.target
              sample_render_index_nonempty eq_refl eq_refl eq_refl sample_world_miss)
    as (payload & w1 & E & Hstore & _ & _ & Hagain).
  exists payload, w1.
  split; [ exact E | ].
  refine (proj1 (Hagain Sample.net_up Sample.post_url w1 eq_refl eq_refl eq_refl eq_refl _)).
  replace w1 with
    (detect_phishing Sample.render Sample.model Sample.net_down Sample.post_url Sample.world).2
    by (rewrite E; reflexivity).
  vm_compute. discriminate.
Defined.

Lemma contact_creation_witness :
  db_session Sample.world = []
  /\ exists w',
       submit_contact Sample.render Sample.post_contact Sample.world
         = (Ok (Page (Sample.render "contact.html" [("success", PyBool true)])), w')
       /\ size (contact_table w') = 2%nat.
Proof.
  split; [ reflexivity | ].
  destruct (contact_creation Sample.render Sample.post_contact Sample.world eq_refl)
    as [Hadd _].
  destruct (Hadd "Bob" "bob@example.test" "hi" eq_refl eq_refl eq_refl)
    as (w' & E & _ & _ & Hsize & _).
  exists w'. split; [ exact E | exact Hsize ].
Defined.

Lemma contact_deletion_witness :
  contact_table Sample.world !! 1 = Some ("Ann", "ann@example.test", "hello")
  /\ db_session Sample.world = []
  /\ (exists w',
         delete_contact 1 Sample.world = (Ok (Redirect "/view_contacts" []), w')
         /\ length (listed_contacts w') = 0%nat)
  /\ (delete_contact 2 Sample.world).1 = Abort 404.
Proof.
  split; [ reflexivity | ]. split; [ reflexivity | ].
  destruct (contact_deletion Sample.render 1 Sample.world) as [_ Hdel].
  destruct (contact_deletion Sample.render 2 Sample.world) as [Hmissing _].
  split.
  - destruct (Hdel _ eq_refl eq_refl) as (w' & E & _ & _ & _ & _ & _ & Hlen).
    exists w'. split; [ exact E | ].
    apply eq_add_S. exact Hlen.
  - destruct (Hmissing eq_refl) as [E _]. rewrite E. reflexivity.
Defined.

(** ** Further properties of the classification view *)

Lemma detect_phishing_unverified rt fm net req w :
  ~ verified req ->
  detect_phishing rt fm net req w = (Ok (Redirect "/verify_recaptcha" []), w).
Proof.
  intros Hnv. unfold detect_phishing.
  destruct (decide _) as [Hv | _]; [ | reflexivity ].
  exfalso. apply Hnv. exact Hv.
Qed.

Lemma detect_phishing_form rt fm net req w :
  verified req ->
  method req <> POST ->
  detect_phishing rt fm net req w = (Ok (Page (rt "index.html" [])), w).
Proof.
  intros Hv Hm. unfold detect_phishing.
  destruct (decide _) as [_ | Hn]; [ | contradiction ].
  destruct (decide _) as [Hp | _]; [ contradiction | reflexivity ].
Qed.

Lemma detect_phishing_no_url rt fm net req w :
  verified req ->
  method req = POST ->
  multidict_get "url" (form req) = None ->
  detect_phishing rt fm net req w = (Abort 400, w).
Proof.
  intros Hv Hm Hu. unfold detect_phishing.
  destruct (decide _) as [_ | Hn]; [ | contradiction ].
  destruct (decide _) as [_ | Hn]; [ | contradiction ].
  unfold bind. rewrite (form_index_absent _ _ _ Hu). reflexivity.
Qed.

Lemma cache_hit_or_miss w url :
  (exists payload,
      cache_lookup (clock w) (cache_store w) url = Some payload /\ payload <> "")
  \/ cache_miss w url.
Proof.
  unfold cache_miss.
  destruct (cache_lookup (clock w) (cache_store w) url) as [payload | ] eqn:E;
    [ | right; reflexivity ].
  destruct (String.eqb_spec payload "") as [-> | Hne].
  - right. reflexivity.
  - left. exists payload. split; [ reflexivity | exact Hne ].
Qed.

(** The six ways a request to [/] can go, each with the world it leaves. *)
Lemma detect_phishing_cases rt fm net req w :
  (~ verified req
   /\ detect_phishing rt fm net req w = (Ok (Redirect "/verify_recaptcha" []), w))
  \/ (verified req /\ method req <> POST
      /\ detect_phishing rt fm net req w = (Ok (Page (rt "index.html" [])), w))
  \/ (verified req /\ method req = POST /\ multidict_get "url" (form req) = None
      /\ detect_phishing rt fm net req w = (Abort 400, w))
  \/ (exists url payload,
         verified req /\ method req = POST
         /\ multidict_get "url" (form req) = Some url
         /\ cache_lookup (clock w) (cache_store w) url = Some payload
         /\ payload <> ""
         /\ detect_phishing rt fm net req w
            = (Ok (Page payload), set_log w (log w ++ [EvCacheGet url])))
  \/ (exists url payload,
         verified req /\ method req = POST
         /\ multidict_get "url" (form req) = Some url
         /\ cache_miss w url
         /\ liveness_failed net url
         /\ detect_phishing rt fm net req w
            = (Ok (Page payload),
               after_miss w url payload
                 [EvCacheGet url; EvRequestsGet url 5; EvCacheSet url payload 3600]))
  \/ (exists url payload,
         verified req /\ method req = POST
         /\ multidict_get "url" (form req) = Some url
         /\ cache_miss w url
         /\ requests_get net url 5 = GetStatus 200
         /\ detect_phishing rt fm net req w
            = (Ok (Page payload),
               after_miss w url payload
                 [EvCacheGet url; EvRequestsGet url 5; EvPredict url; EvPredictProba url;
                  EvCacheSet url payload 3600])).
Proof.
  destruct (decide (verified req)) as [Hv | Hnv];
    [ | left; split; [ exact Hnv | apply detect_phishing_unverified; exact Hnv ] ].
  destruct (decide (method req = POST)) as [Hm | Hm];
    [ | right; left; repeat (split; [ first [ assumption | reflexivity ] | ]);
        apply detect_phishing_form; assumption ].
  destruct (multidict_get "url" (form req)) as [url | ] eqn:Hu;
    [ | right; right; left; repeat (split; [ first [ assumption | reflexivity ] | ]);
        apply detect_phishing_no_url; assumption ].
  right; right; right.
  destruct (cache_hit_or_miss w url) as [(payload & Hc & Hne) | Hc].
  - left. exists url, payload.
    repeat (split; [ first [ assumption | reflexivity ] | ]).
    apply detect_phishing_hit; assumption.
  - right. destruct (liveness_cases net url) as [Hf | Hl].
    + left. eexists url, _. repeat (split; [ first [ assumption | reflexivity ] | ]).
      apply (detect_phishing_failed rt fm net req w url Hv Hm Hu Hc Hf).
    + right. eexists url, _. repeat (split; [ first [ assumption | reflexivity ] | ]).
      apply (detect_phishing_live rt fm net req w url Hv Hm Hu Hc Hl).
Qed.

Lemma detect_phishing_events rt fm net req w :
  events_of (detect_phishing rt fm net req) w = []
  \/ (exists url,
         verified req /\ method req = POST
         /\ multidict_get "url" (form req) = Some url
         /\ ((~ cache_miss w url
              /\ events_of (detect_phishing rt fm net req) w = [EvCacheGet url])
             \/ (cache_miss w url /\ liveness_failed net url
                 /\ exists payload,
                      events_of (detect_phishing rt fm net req) w
                        = [EvCacheGet url; EvRequestsGet url 5; EvCacheSet url payload 3600])
             \/ (cache_miss w url /\ requests_get net url 5 = GetStatus 200
                 /\ exists payload,
                      events_of (detect_phishing rt fm net req) w
                        = [EvCacheGet url; EvRequestsGet url 5; EvPredict url;
                           EvPredictProba url; EvCacheSet url payload 3600]))).
Proof.
  destruct (detect_phishing_cases rt fm net req w)
    as [(_ & E) | [(_ & _ & E) | [(_ & _ & _ & E) | [H | [H | H]]]]].
  - left. apply events_of_same. rewrite E. reflexivity.
  - left. apply events_of_same. rewrite E. reflexivity.
  - left. apply events_of_same. rewrite E. reflexivity.
  - destruct H as (url & payload & Hv & Hm & Hu & Hc & Hne & E).
    right. exists url. repeat (split; [ assumption | ]). left. split.
    + unfold cache_miss, str_truthy. rewrite Hc.
      destruct (String.eqb_spec payload ""); [ contradiction | discriminate ].
    + apply events_of_app. rewrite E. reflexivity.
  - destruct H as (url & payload & Hv & Hm & Hu & Hc & Hf & E).
    right. exists url. repeat (split; [ assumption | ]). right. left.
    split; [ exact Hc | ]. split; [ exact Hf | ].
    exists payload. apply (after_miss_events _ _ _ _ _ _ E).
  - destruct H as (url & payload & Hv & Hm & Hu & Hc & Hl & E).
    right. exists url. repeat (split; [ assumption | ]). right. right.
    split; [ exact Hc | ]. split; [ exact Hl | ].
    exists payload. apply (after_miss_events _ _ _ _ _ _ E).
Qed.

(** X1: the model is consulted only for a verified POST whose URL missed
    the cache and answered the liveness GET with 200, and only about that
    URL. *)
Theorem model_called_only_when_live :
  forall render_template feature_model net req w e,
    In e (events_of (detect_phishing render_template feature_model net req) w) ->
    is_model_call e = true ->
    verified req /\ method req = POST
    /\ exists url,
         multidict_get "url" (form req) = Some url
         /\ cache_miss w url
         /\ requests_get net url 5 = GetStatus 200
         /\ (e = EvPredict url \/ e = EvPredictProba url).
Proof.
  intros rt fm net req w e Hin He.
  destruct (detect_phishing_events rt fm net req w)
    as [E | (url & Hv & Hm & Hu & [(_ & E) | [(_ & _ & p & E) | (Hc & Hl & p & E)]])];
    rewrite E in Hin; cbn [In] in Hin.
  - contradiction.
  - destruct Hin as [<- | []]. discriminate.
  - destruct Hin as [<- | [<- | [<- | []]]]; discriminate.
  - split; [ exact Hv | ]. split; [ exact Hm | ].
    exists url. repeat (split; [ assumption | ]).
    destruct Hin as [<- | [<- | [<- | [<- | [<- | []]]]]];
      try discriminate; [ left | right ]; reflexivity.
Qed.

(** X2: every liveness probe goes to the submitted string itself, with the
    five-second timeout, and is sent only for a verified POST that missed
    the cache. *)
Theorem liveness_probe_is_bounded :
  forall render_template feature_model net req w target timeout,
    In (EvRequestsGet target timeout)
       (events_of (detect_phishing render_template feature_model net req) w) ->
    timeout = 5
    /\ verified req /\ method req = POST
    /\ multidict_get "url" (form req) = Some target
    /\ cache_miss w target.
Proof.
  intros rt fm net req w target timeout Hin.
  destruct (detect_phishing_events rt fm net req w)
    as [E | (url & Hv & Hm & Hu & [(_ & E) | [(Hc & _ & p & E) | (Hc & _ & p & E)]])];
    rewrite E in Hin; cbn [In] in Hin.
  - contradiction.
  - destruct Hin as [H | []]. discriminate.
  - destruct Hin as [H | [H | [H | []]]]; try discriminate.
    injection H as <- <-. repeat (split; [ first [ assumption | reflexivity ] | ]).
    exact Hc.
  - destruct Hin as [H | [H | [H | [H | [H | []]]]]]; try discriminate.
    injection H as <- <-. repeat (split; [ first [ assumption | reflexivity ] | ]).
    exact Hc.
Qed.

(** X3: whatever the request, the classification view leaves the clock,
    the contact table, the database session and the flashes alone, only
    appends to the log, and changes no cache entry other than the one under
    the submitted URL. *)
Theorem detect_phishing_frame :
  forall render_template feature_model net req w,
    let w' := (detect_phishing render_template feature_model net req w).2 in
    clock w' = clock w
    /\ contact_table w' = contact_table w
    /\ db_session w' = db_session w
    /\ flashes w' = flashes w
    /\ (exists evs, log w' = log w ++ evs)
    /\ forall key,
         multidict_get "url" (form req) <> Some key ->
         cache_store w' !! key = cache_store w !! key.
Proof.
  intros rt fm net req w.
  destruct (detect_phishing_cases rt fm net req w)
    as [(_ & E) | [(_ & _ & E) | [(_ & _ & _ & E) | [H | [H | H]]]]].
  1-3: rewrite E; cbn [snd]; repeat (split; [ reflexivity | ]);
       (split; [ exists []; symmetry; apply app_nil_r | reflexivity ]).
  - destruct H as (url & payload & _ & _ & _ & _ & _ & E).
    rewrite E. cbn [snd]. repeat (split; [ reflexivity | ]).
    split; [ eexists; reflexivity | reflexivity ].
  - destruct H as (url & payload & _ & _ & Hu & _ & _ & E).
    rewrite E. cbn [snd]. repeat (split; [ reflexivity | ]).
    split; [ eexists; reflexivity | ].
    intros key Hk. unfold after_miss. cbn [cache_store set_cache_store].
    apply lookup_insert_ne. congruence.
  - destruct H as (url & payload & _ & _ & Hu & _ & _ & E).
    rewrite E. cbn [snd]. repeat (split; [ reflexivity | ]).
    split; [ eexists; reflexivity | ].
    intros key Hk. unfold after_miss. cbn [cache_store set_cache_store].
    apply lookup_insert_ne. congruence.
Qed.


Lemma detect_phishing_reclassifies rt fm net req w url :
  verified req ->
  method req = POST ->
  multidict_get "url" (form req) = Some url ->
  cache_miss w url ->
  exists payload w',
    detect_phishing rt fm net req w = (Ok (Page payload), w')
    /\ cache_store w' !! url = Some (payload, clock w + 3600)
    /\ In (EvRequestsGet url 5) (events_of (detect_phishing rt fm net req) w).
Proof.
  intros Hv Hm Hu Hc.
  destruct (liveness_cases net url) as [Hf | Hl].
  - pose proof (detect_phishing_failed rt fm net req w url Hv Hm Hu Hc Hf) as E.
    cbv zeta in E. eexists _, _. split; [ exact E | ].
    split; [ apply lookup_insert_eq | ].
    rewrite (after_miss_events _ _ _ _ _ _ E). right. left. reflexivity.
  - pose proof (detect_phishing_live rt fm net req w url Hv Hm Hu Hc Hl) as E.
    cbv zeta in E. eexists _, _. split; [ exact E | ].
    split; [ apply lookup_insert_eq | ].
    rewrite (after_miss_events _ _ _ _ _ _ E). right. left. reflexivity.
Qed.

(** X5: once an entry's expiry time has passed, a verified POST of its URL
    is classified afresh: the liveness GET is sent again and the entry is
    replaced by the new page, to expire 3600 seconds after this write. *)
Theorem expired_entry_reclassified :
  forall render_template feature_model net req w url stale expires,
    verified req ->
    method req = POST ->
    multidict_get "url" (form req) = Some url ->
    cache_store w !! url = Some (stale, expires) ->
    expires <> 0 ->
    expires < clock w ->
    exists payload w',
      detect_phishing render_template feature_model net req w = (Ok (Page payload), w')
      /\ cache_store w' !! url = Some (payload, clock w + 3600)
      /\ In (EvRequestsGet url 5)
           (events_of (detect_phishing render_template feature_model net req) w).
Proof.
  intros rt fm net req w url stale expires Hv Hm Hu Hs H0 Hlt.
  apply (detect_phishing_reclassifies rt fm net req w url Hv Hm Hu).
  unfold cache_miss, cache_lookup. rewrite Hs.
  apply Z.eqb_neq in H0. rewrite H0.
  assert (Hle : (clock w <=? expires)%Z = false) by (apply Z.leb_gt; exact Hlt).
  rewrite Hle. reflexivity.
Qed.

(** X6: a stored page that is the empty string never counts as a hit, even
    unexpired: the test on the cached value is its truth value, so the URL
    is checked and rendered again. *)
Theorem empty_cached_page_is_miss :
  forall render_template feature_model net req w url expires,
    verified req ->
    method req = POST ->
    multidict_get "url" (form req) = Some url ->
    cache_store w !! url = Some ("", expires) ->
    exists payload w',
      detect_phishing render_template feature_model net req w = (Ok (Page payload), w')
      /\ cache_store w' !! url = Some (payload, clock w + 3600)
      /\ In (EvRequestsGet url 5)
           (events_of (detect_phishing render_template feature_model net req) w).
Proof.
  intros rt fm net req w url expires Hv Hm Hu Hs.
  apply (detect_phishing_reclassifies rt fm net req w url Hv Hm Hu).
  unfold cache_miss, cache_lookup. rewrite Hs.
  destruct ((expires =? 0)%Z || (clock w <=? expires)%Z); reflexivity.
Qed.


(** ** Further properties of the CAPTCHA gate *)

Lemma verify_recaptcha_get rt site secret net req w :
  method req <> POST ->
  verify_recaptcha rt site secret net req w
    = (Ok (Page (rt "verification.html" [("RECAPTCHA_SITE_KEY", py_opt_str site)])), w).
Proof.
  intros Hm. unfold verify_recaptcha.
  destruct (decide _) as [Hp | _]; [ contradiction | reflexivity ].
Qed.

Lemma verify_recaptcha_no_token rt site secret net req w :
  method req = POST ->
  str_truthy (captcha_token req) = false ->
  verify_recaptcha rt site secret net req w
    = (Ok (gate_error rt "Please complete the reCAPTCHA."), w).
Proof.
  intros Hm Ht. unfold verify_recaptcha.
  destruct (decide _) as [_ | Hn]; [ | contradiction ].
  fold (captcha_token req). rewrite Ht. reflexivity.
Qed.

Lemma verify_recaptcha_posted rt site secret net req w :
  method req = POST ->
  str_truthy (captcha_token req) = true ->
  verify_recaptcha rt site secret net req w
    = (match siteverify_reply secret net req with
       | PostRaised => Abort 500
       | PostReply status_code json =>
           if response_ok status_code then
             match json with
             | None => Abort 500
             | Some result =>
                 if json_truthy (json_get "success" result) then
                   Ok (Redirect "/" [set_cookie "recaptcha_verified" "true"])
                 else Ok (gate_error rt "reCAPTCHA verification failed.")
             end
           else Ok (gate_error rt "Failed to verify reCAPTCHA. Please try again later.")
       end,
       set_log w (log w ++ [EvRequestsPost siteverify_url])).
Proof.
  intros Hm Ht. unfold verify_recaptcha, siteverify_reply, gate_error.
  destruct (decide _) as [_ | Hn]; [ | contradiction ].
  fold (captcha_token req). fold siteverify_url. rewrite Ht.
  cbv [negb bind http_post emit ret abort].
  destruct (requests_post net siteverify_url _) as [ | s [result | ]];
    [ reflexivity | | ].
  - destruct (response_ok s); [ | reflexivity ].
    destruct (json_truthy _); reflexivity.
  - destruct (response_ok s); reflexivity.
Qed.









(** X7: passing the gate opens the classification view.  The cookies set by
    a successful verification, sent back by the client, make every later
    request to [/] a verified one: it is never redirected to the gate again,
    and a request that is not a POST gets the empty form. *)
Theorem passed_gate_opens_root :
  forall render_template feature_model site_key secret net req w,
    method req = POST ->
    captcha_passed secret net req = true ->
    exists set_cookies,
      (verify_recaptcha render_template site_key secret net req w).1
        = Ok (Redirect "/" set_cookies)
      /\ forall net2 req2 w2,
           cookies req2 = cookie_pairs set_cookies ->
           (detect_phishing render_template feature_model net2 req2 w2).1
             <> Ok (Redirect "/verify_recaptcha" [])
           /\ (method req2 <> POST ->
               detect_phishing render_template feature_model net2 req2 w2
                 = (Ok (Page (render_template "index.html" [])), w2)).
Proof.
  intros rt fm site secret net req w Hm Hp.
  unfold captcha_passed in Hp. apply andb_true_iff in Hp as [Ht Hp].
  exists [set_cookie "recaptcha_verified" "true"]. split.
  - rewrite (verify_recaptcha_posted rt site secret net req w Hm Ht). cbn [fst].
    destruct (siteverify_reply secret net req) as [ | s [result | ]]; try discriminate.
    apply andb_true_iff in Hp as [Hok Hs]. rewrite Hok, Hs. reflexivity.
  - intros net2 req2 w2 Hc.
    assert (Hv : verified req2) by (unfold verified; rewrite Hc; reflexivity).
    split; [ | intros Hm2; apply detect_phishing_form; assumption ].
    destruct (detect_phishing_cases rt fm net2 req2 w2)
      as [(Hnv & _) | [(_ & _ & E) | [(_ & _ & _ & E) | [H | [H | H]]]]].
    + contradiction.
    + rewrite E. discriminate.
    + rewrite E. discriminate.
    + destruct H as (u & p & _ & _ & _ & _ & _ & E). rewrite E. discriminate.
    + destruct H as (u & p & _ & _ & _ & _ & _ & E). rewrite E. discriminate.
    + destruct H as (u & p & _ & _ & _ & _ & _ & E). rewrite E. discriminate.
Qed.

(** X8: a token that is present but empty is handled like a missing one:
    the missing-token error is shown and the endpoint is not called. *)
Theorem empty_token_is_missing :
  forall render_template site_key secret net req w,
    method req = POST ->
    captcha_token req = Some "" ->
    verify_recaptcha render_template site_key secret net req w
      = (Ok (gate_error render_template "Please complete the reCAPTCHA."), w).
Proof.
  intros rt site secret net req w Hm Ht.
  apply verify_recaptcha_no_token; [ exact Hm | ].
  rewrite Ht. reflexivity.
Qed.

(** X9: the verdict of the endpoint is read by truth value, not compared
    with [True]: on a success status, a [success] member that is a
    non-empty string or a non-zero number passes the gate like [true]. *)
Theorem truthy_success_passes :
  forall render_template site_key secret net req w status_code result,
    method req = POST ->
    str_truthy (captcha_token req) = true ->
    siteverify_reply secret net req = PostReply status_code (Some result) ->
    response_ok status_code = true ->
    (exists s, json_get "success" result = Some (JString s) /\ s <> "")
    \/ (exists n, json_get "success" result = Some (JNumber n) /\ n <> 0) ->
    (verify_recaptcha render_template site_key secret net req w).1
      = Ok (Redirect "/" [set_cookie "recaptcha_verified" "true"]).
Proof.
  intros rt site secret net req w status_code result Hm Ht Hr Hok Hs.
  rewrite (verify_recaptcha_posted rt site secret net req w Hm Ht), Hr, Hok. cbn [fst].
  assert (Htrue : json_truthy (json_get "success" result) = true).
  { destruct Hs as [(s & -> & Hne) | (n & -> & Hne)]; cbn [json_truthy].
    - destruct (String.eqb_spec s ""); [ contradiction | reflexivity ].
    - apply negb_true_iff, Z.eqb_neq. exact Hne. }
  rewrite Htrue. reflexivity.
Qed.

(** X10: the call to the endpoint is unguarded.  When it raises, or when a
    success status comes with a body that is not a JSON object, the request
    ends with a 500 after the one call; no page is rendered and no cookie
    set. *)
Theorem siteverify_failure_is_500 :
  forall render_template site_key secret net req w,
    method req = POST ->
    str_truthy (captcha_token req) = true ->
    siteverify_reply secret net req = PostRaised
    \/ (exists status_code,
           siteverify_reply secret net req = PostReply status_code None
           /\ response_ok status_code = true) ->
    verify_recaptcha render_template site_key secret net req w
      = (Abort 500, set_log w (log w ++ [EvRequestsPost siteverify_url])).
Proof.
  intros rt site secret net req w Hm Ht Hr.
  rewrite (verify_recaptcha_posted rt site secret net req w Hm Ht).
  destruct Hr as [-> | (s & -> & ->)]; reflexivity.
Qed.

(** X11: the gate calls the verification endpoint once, for a POST with a
    non-empty token, and never otherwise; apart from the log it changes
    nothing in the world. *)
Theorem verify_recaptcha_frame :
  forall render_template site_key secret net req w,
    let w' := (verify_recaptcha render_template site_key secret net req w).2 in
    events_of (verify_recaptcha render_template site_key secret net req) w
      = (if decide (method req = POST) then
           if str_truthy (captcha_token req) then [EvRequestsPost siteverify_url] else []
         else [])
    /\ clock w' = clock w
    /\ cache_store w' = cache_store w
    /\ contact_table w' = contact_table w
    /\ db_session w' = db_session w
    /\ flashes w' = flashes w.
Proof.
  intros rt site secret net req w.
  destruct (decide (method req = POST)) as [Hm | Hm].
  - destruct (str_truthy (captcha_token req)) eqn:Ht.
    + pose proof (verify_recaptcha_posted rt site secret net req w Hm Ht) as E.
      split; [ apply events_of_app; rewrite E; reflexivity | ].
      rewrite E. repeat split.
    + pose proof (verify_recaptcha_no_token rt site secret net req w Hm Ht) as E.
      split; [ apply events_of_same; rewrite E; reflexivity | ].
      rewrite E. repeat split.
  - pose proof (verify_recaptcha_get rt site secret net req w Hm) as E.
    split; [ apply events_of_same; rewrite E; reflexivity | ].
    rewrite E. repeat split.
Qed.

(** ** Further properties of the contact views *)

Lemma submit_contact_inserts rt req w name email message :
  db_session w = [] ->
  multidict_get "name" (form req) = Some name ->
  multidict_get "email" (form req) = Some email ->
  multidict_get "message" (form req) = Some message ->
  exists w',
    submit_contact rt req w
      = (Ok (Page (rt "contact.html" [("success", PyBool true)])), w')
    /\ contact_table w'
       = <[next_rowid (contact_table w) := (name, email, message)]> (contact_table w)
    /\ db_session w' = []
    /\ cache_store w' = cache_store w.
Proof.
  intros Hs Hn He Hmsg. eexists. split.
  - unfold submit_contact, form_index. rewrite Hn, He, Hmsg.
    cbv [bind ret db_session_add db_session_commit emit].
    cbn [db_session set_log set_db_session set_contact_table contact_table log
         clock cache_store flashes].
    rewrite Hs. cbn [app foldl apply_pending]. reflexivity.
  - repeat split.
Qed.

Lemma delete_contact_removes id w row :
  contact_table w !! id = Some row ->
  db_session w = [] ->
  exists w',
    delete_contact id w = (Ok (Redirect "/view_contacts" []), w')
    /\ contact_table w' = delete id (contact_table w)
    /\ db_session w' = [].
Proof.
  intros Hrow Hs. eexists. split.
  - cbv [delete_contact get_or_404 db_session_delete db_session_commit flash bind emit ret].
    cbn [contact_table set_log set_db_session set_contact_table set_flashes db_session
         log clock cache_store flashes].
    rewrite Hrow.
    cbn [contact_table set_log set_db_session set_contact_table set_flashes db_session
         log clock cache_store flashes].
    rewrite Hs. cbn [app foldl apply_pending contact_id row_to_contact fst].
    reflexivity.
  - split; reflexivity.
Qed.

Lemma delete_contact_absent id w :
  contact_table w !! id = None ->
  delete_contact id w = (Abort 404, set_log w (log w ++ [EvDbGet id])).
Proof.
  intros Hnone. cbv [delete_contact get_or_404 bind emit].
  cbn [contact_table set_log]. rewrite Hnone. reflexivity.
Qed.

(** X12: a submitted contact shows up in the next listing with the fields
    as sent, under an id no listed contact had, and the listing holds
    nothing else beyond the contacts that were there. *)
Theorem submitted_contact_is_listed :
  forall render_template req w name email message,
    db_session w = [] ->
    multidict_get "name" (form req) = Some name ->
    multidict_get "email" (form req) = Some email ->
    multidict_get "message" (form req) = Some message ->
    let added :=
      {| contact_id := next_rowid (contact_table w); contact_name := name;
         contact_email := email; contact_message := message |} in
    exists w',
      submit_contact render_template req w
        = (Ok (Page (render_template "contact.html" [("success", PyBool true)])), w')
      /\ (view_contacts render_template w').1
         = Ok (Page (render_template "view_contacts.html"
                       [("contacts", PyContacts (listed_contacts w'))]))
      /\ (forall c, c ∈ listed_contacts w' <-> c = added \/ c ∈ listed_contacts w)
      /\ (forall c, c ∈ listed_contacts w -> contact_id c < contact_id added).
Proof.
  intros rt req w name email message Hs Hn He Hmsg added.
  destruct (submit_contact_inserts rt req w name email message Hs Hn He Hmsg)
    as (w' & E & Ht & _).
  exists w'. split; [ exact E | ].
  split; [ reflexivity | ].
  split.
  - intros c. rewrite !listed_contacts_elem, Ht, lookup_insert_Some. split.
    + intros [[Hid Hrow] | [_ H]]; [ left | right; exact H ].
      destruct c as [i n e m]. cbn in Hid, Hrow. subst i.
      injection Hrow as -> -> ->. reflexivity.
    + intros [-> | H].
      * left. split; reflexivity.
      * right. split; [ | exact H ].
        intros Hid. rewrite <- Hid, next_rowid_fresh in H. discriminate.
  - intros c Hc. apply listed_contacts_elem in Hc.
    apply next_rowid_above. rewrite Hc. eexists. reflexivity.
Qed.

(** X13: deleting the contact that a submission just created puts the
    table back to what it was before the submission. *)
Theorem submit_then_delete_restores :
  forall render_template req w name email message,
    db_session w = [] ->
    multidict_get "name" (form req) = Some name ->
    multidict_get "email" (form req) = Some email ->
    multidict_get "message" (form req) = Some message ->
    exists w1 w2,
      submit_contact render_template req w
        = (Ok (Page (render_template "contact.html" [("success", PyBool true)])), w1)
      /\ delete_contact (next_rowid (contact_table w)) w1
         = (Ok (Redirect "/view_contacts" []), w2)
      /\ contact_table w2 = contact_table w.
Proof.
  intros rt req w name email message Hs Hn He Hmsg.
  destruct (submit_contact_inserts rt req w name email message Hs Hn He Hmsg)
    as (w1 & E1 & Ht1 & Hs1 & _).
  assert (Hrow : contact_table w1 !! next_rowid (contact_table w)
                 = Some (name, email, message))
    by (rewrite Ht1; apply lookup_insert_eq).
  destruct (delete_contact_removes _ w1 _ Hrow Hs1) as (w2 & E2 & Ht2 & _).
  exists w1, w2. split; [ exact E1 | ]. split; [ exact E2 | ].
  rewrite Ht2, Ht1. apply delete_insert_id, next_rowid_fresh.
Qed.

(** X14: a contact can be deleted once: after a successful deletion, a
    second request for the same id ends with a 404 and changes no row. *)
Theorem delete_twice_not_found :
  forall id w row,
    contact_table w !! id = Some row ->
    db_session w = [] ->
    exists w1,
      delete_contact id w = (Ok (Redirect "/view_contacts" []), w1)
      /\ (delete_contact id w1).1 = Abort 404
      /\ contact_table (delete_contact id w1).2 = contact_table w1.
Proof.
  intros id w row Hrow Hs.
  destruct (delete_contact_removes id w row Hrow Hs) as (w1 & E1 & Ht1 & _).
  exists w1. split; [ exact E1 | ].
  assert (Hgone : contact_table w1 !! id = None)
    by (rewrite Ht1; apply lookup_delete_eq).
  rewrite (delete_contact_absent id w1 Hgone). split; reflexivity.
Qed.

(** ** The further properties at concrete requests *)

Lemma model_called_only_when_live_witness :
  In (EvPredict Sample.target)
     (events_of (detect_phishing Sample.render Sample.model Sample.net_up Sample.post_url)
        Sample.world)
  /\ is_model_call (EvPredict Sample.target) = true
  /\ verified Sample.post_url
  /\ method Sample.post_url = POST.
Proof.
  assert (Hin : In (EvPredict Sample.target)
                  (events_of (detect_phishing Sample.render Sample.model Sample.net_up
                                Sample.post_url) Sample.world)).
  { vm_compute. right. right. left. reflexivity. }
  split; [ exact Hin | ]. split; [ reflexivity | ].
  destruct (model_called_only_when_live Sample.render Sample.model Sample.net_up
              Sample.post_url Sample.world (EvPredict Sample.target) Hin eq_refl)
    as (Hv & Hm & _).
  split; [ exact Hv | exact Hm ].
Defined.

Lemma liveness_probe_is_bounded_witness :
  In (EvRequestsGet Sample.target 5)
     (events_of (detect_phishing Sample.render Sample.model Sample.net_down Sample.post_url)
        Sample.world)
  /\ cache_miss Sample.world Sample.target.
Proof.
  assert (Hin : In (EvRequestsGet Sample.target 5)
                  (events_of (detect_phishing Sample.render Sample.model Sample.net_down
                                Sample.post_url) Sample.world)).
  { vm_compute. right. left. reflexivity. }
  split; [ exact Hin | ].
  destruct (liveness_probe_is_bounded Sample.render Sample.model Sample.net_down
              Sample.post_url Sample.world Sample.target 5 Hin)
    as (_ & _ & _ & _ & Hc).
  exact Hc.
Defined.


Lemma expired_entry_reclassified_witness :
  verified Sample.post_url
  /\ method Sample.post_url = POST
  /\ multidict_get "url" (form Sample.post_url) = Some Sample.target
  /\ cache_store Sample.stale_world !! Sample.target = Some ("stale page", 1600000000)
  /\ 1600000000 <> 0
  /\ 1600000000 < clock Sample.stale_world
  /\ exists payload w',
       detect_phishing Sample.render Sample.model Sample.net_down Sample.post_url
         Sample.stale_world = (Ok (Page payload), w')
       /\ cache_store w' !! Sample.target = Some (payload, 1700003600).
Proof.
  assert (H0 : 1600000000 <> 0) by discriminate.
  assert (Hlt : 1600000000 < clock Sample.stale_world) by reflexivity.
  split; [ reflexivity | ]. split; [ reflexivity | ]. split; [ reflexivity | ].
  split; [ reflexivity | ]. split; [ exact H0 | ]. split; [ exact Hlt | ].
  destruct (expired_entry_reclassified Sample.render Sample.model Sample.net_down
              Sample.post_url Sample.stale_world Sample.target "stale page" 1600000000
              eq_refl eq_refl eq_refl eq_refl H0 Hlt)
    as (payload & w' & E & Hstore & _).
  exists payload, w'. split; [ exact E | exact Hstore ].
Defined.

Lemma empty_cached_page_is_miss_witness :
  verified Sample.post_url
  /\ method Sample.post_url = POST
  /\ multidict_get "url" (form Sample.post_url) = Some Sample.target
  /\ cache_store Sample.blank_world !! Sample.target = Some ("", 0)
  /\ In (EvRequestsGet Sample.target 5)
       (events_of (detect_phishing Sample.render Sample.model Sample.net_up Sample.post_url)
          Sample.blank_world).
Proof.
  split; [ reflexivity | ]. split; [ reflexivity | ]. split; [ reflexivity | ].
  split; [ reflexivity | ].
  destruct (empty_cached_page_is_miss Sample.render Sample.model Sample.net_up
              Sample.post_url Sample.blank_world Sample.target 0
              eq_refl eq_refl eq_refl eq_refl)
    as (payload & w' & _ & _ & Hin).
  exact Hin.
Defined.

Lemma passed_gate_opens_root_witness :
  method Sample.post_token = POST
  /\ captcha_passed None Sample.net_up Sample.post_token = true
  /\ detect_phishing Sample.render Sample.model Sample.net_down Sample.get_root Sample.world
     = (Ok (Page (Sample.render "index.html" [])), Sample.world).
Proof.
  split; [ reflexivity | ]. split; [ reflexivity | ].
  destruct (passed_gate_opens_root Sample.render Sample.model None None Sample.net_up
              Sample.post_token Sample.world eq_refl eq_refl)
    as (set_cookies & E & Hopen).
  assert (Hc : cookies Sample.get_root = cookie_pairs set_cookies).
  { cbv in E. injection E as <-. reflexivity. }
  destruct (Hopen Sample.net_down Sample.get_root Sample.world Hc) as [_ Hform].
  apply Hform. discriminate.
Defined.

Lemma empty_token_is_missing_witness :
  method Sample.post_blank_token = POST
  /\ captcha_token Sample.post_blank_token = Some ""
  /\ verify_recaptcha Sample.render None None Sample.net_up Sample.post_blank_token
       Sample.world
     = (Ok (gate_error Sample.render "Please complete the reCAPTCHA."), Sample.world).
Proof.
  split; [ reflexivity | ]. split; [ reflexivity | ].
  exact (empty_token_is_missing Sample.render None None Sample.net_up
           Sample.post_blank_token Sample.world eq_refl eq_refl).
Defined.

Lemma truthy_success_passes_witness :
  method Sample.post_token = POST
  /\ str_truthy (captcha_token Sample.post_token) = true
  /\ siteverify_reply None Sample.net_truthy Sample.post_token
     = PostReply 200 (Some [("success", JString "yes")])
  /\ response_ok 200 = true
  /\ (verify_recaptcha Sample.render None None Sample.net_truthy Sample.post_token
        Sample.world).1
     = Ok (Redirect "/" [set_cookie "recaptcha_verified" "true"]).
Proof.
  split; [ reflexivity | ]. split; [ reflexivity | ]. split; [ reflexivity | ].
  split; [ reflexivity | ].
  apply (truthy_success_passes Sample.render None None Sample.net_truthy Sample.post_token
           Sample.world 200 [("success", JString "yes")] eq_refl eq_refl eq_refl eq_refl).
  left. exists "yes". split; [ reflexivity | discriminate ].
Defined.

Lemma siteverify_failure_is_500_witness :
  method Sample.post_token = POST
  /\ str_truthy (captcha_token Sample.post_token) = true
  /\ siteverify_reply None Sample.net_down Sample.post_token = PostRaised
  /\ (verify_recaptcha Sample.render None None Sample.net_down Sample.post_token
        Sample.world).1 = Abort 500.
Proof.
  split; [ reflexivity | ]. split; [ reflexivity | ]. split; [ reflexivity | ].
  rewrite (siteverify_failure_is_500 Sample.render None None Sample.net_down
             Sample.post_token Sample.world eq_refl eq_refl (or_introl eq_refl)).
  reflexivity.
Defined.

Lemma submitted_contact_is_listed_witness :
  db_session Sample.world = []
  /\ multidict_get "name" (form Sample.post_contact) = Some "Bob"
  /\ multidict_get "email" (form Sample.post_contact) = Some "bob@example.test"
  /\ multidict_get "message" (form Sample.post_contact) = Some "hi"
  /\ exists w',
       submit_contact Sample.render Sample.post_contact Sample.world
         = (Ok (Page (Sample.render "contact.html" [("success", PyBool true)])), w')
       /\ {| contact_id := 2; contact_name := "Bob"; contact_email := "bob@example.test";
             contact_message := "hi" |} ∈ listed_contacts w'.
Proof.
  split; [ reflexivity | ]. split; [ reflexivity | ]. split; [ reflexivity | ].
  split; [ reflexivity | ].
  destruct (submitted_contact_is_listed Sample.render Sample.post_contact Sample.world
              "Bob" "bob@example.test" "hi" eq_refl eq_refl eq_refl eq_refl)
    as (w' & E & _ & Hlist & _).
  exists w'. split; [ exact E | ].
  apply Hlist. left. reflexivity.
Defined.

Lemma submit_then_delete_restores_witness :
  db_session Sample.world = []
  /\ multidict_get "name" (form Sample.post_contact) = Some "Bob"
  /\ multidict_get "email" (form Sample.post_contact) = Some "bob@example.test"
  /\ multidict_get "message" (form Sample.post_contact) = Some "hi"
  /\ exists w1 w2,
       (submit_contact Sample.render Sample.post_contact Sample.world).2 = w1
       /\ delete_contact 2 w1 = (Ok (Redirect "/view_contacts" []), w2)
       /\ contact_table w2 = contact_table Sample.world.
Proof.
  split; [ reflexivity | ]. split; [ reflexivity | ]. split; [ reflexivity | ].
  split; [ reflexivity | ].
  destruct (submit_then_delete_restores Sample.render Sample.post_contact Sample.world
              "Bob" "bob@example.test" "hi" eq_refl eq_refl eq_refl eq_refl)
    as (w1 & w2 & E1 & E2 & Ht).
  exists w1, w2. split; [ rewrite E1; reflexivity | ].
  split; [ exact E2 | exact Ht ].
Defined.

Lemma delete_twice_not_found_witness :
  contact_table Sample.world !! 1 = Some ("Ann", "ann@example.test", "hello")
  /\ db_session Sample.world = []
  /\ exists w1,
       delete_contact 1 Sample.world = (Ok (Redirect "/view_contacts" []), w1)
       /\ (delete_contact 1 w1).1 = Abort 404.
Proof.
  split; [ reflexivity | ]. split; [ reflexivity | ].
  destruct (delete_twice_not_found 1 Sample.world _ eq_refl eq_refl)
    as (w1 & E & H404 & _).
  exists w1. split; [ exact E | exact H404 ].
Defined.


